(** * programa-salud-chubut: the bulletin scraper of [main.py]

    A shallow embedding of [main.py] and the properties of its link
    extractor, strategy registry, Drive download strategy, result logger
    and orchestrator.

    Python values are modelled as follows.
    - [str] is a list of Unicode code points ([N]); [lit] converts an
      ASCII literal.
    - Library calls that reach outside the process ([requests.get],
      [gdown.download], [os.makedirs], [DataFrame.to_csv]) are answered by
      an environment [env]; each answer may depend on everything the
      process did before (the [trace]).
    - Effects are recorded as a [trace] of events in program order; the
      files [to_csv] writes are kept in the state.
    - Functions that can raise return [exn + A]; functions with effects
      live in the monad [M]. *)

From Stdlib Require Import String Ascii DecimalString.
From Stdlib Require Import List NArith Arith Lia Bool.
Import ListNotations.
Open Scope list_scope.

Set Warnings "-register-all".

(** ** Python strings *)

Module PyStr.

Definition char := N.
Definition str := list char.

(** An ASCII literal of the source as a [str]. *)
Definition lit (s : string) : str :=
  map N_of_ascii (list_ascii_of_string s).
Arguments lit s%_string.

Definition str_eq_dec : forall a b : str, {a = b} + {a <> b} :=
  list_eq_dec N.eq_dec.

Definition str_eqb (a b : str) : bool :=
  if str_eq_dec a b then true else false.

(** [s.startswith(p)] *)
Fixpoint starts_with (p s : str) : bool :=
  match p, s with
  | [], _ => true
  | _ :: _, [] => false
  | a :: p', b :: s' => N.eqb a b && starts_with p' s'
  end.

(** [s.find(sub)]: the lowest index where [sub] occurs, [None] for -1. *)
Fixpoint find (sub s : str) : option nat :=
  if starts_with sub s then Some 0
  else match s with
       | [] => None
       | _ :: s' => option_map S (find sub s')
       end.

(** [sub in s] *)
Definition contains (sub s : str) : bool :=
  match find sub s with Some _ => true | None => false end.

(** The scanner behind [s.split(sep)] for a non-empty [sep]: occurrences
    of [sep] are taken from the left and do not overlap.  [skip] counts
    the characters of a matched separator that are still to be passed
    over, [cur] is the current piece, reversed. *)
Fixpoint split_scan (sep : str) (skip : nat) (cur : str) (s : str) : list str :=
  match s with
  | [] => [rev cur]
  | c :: s' =>
      match skip with
      | S k => split_scan sep k cur s'
      | O =>
          if starts_with sep s
          then rev cur :: split_scan sep (length sep - 1) [] s'
          else split_scan sep 0 (c :: cur) s'
      end
  end.

(** Decimal digits of a number, as [str(n)] prints them. *)
Definition str_of_nat (n : nat) : str :=
  lit (NilZero.string_of_uint (Nat.to_uint n)).

(** Python's [str.isspace] on one code point. *)
Definition isspace (c : char) : bool :=
  ((9 <=? c) && (c <=? 13) || (28 <=? c) && (c <=? 32)
   || (c =? 133) || (c =? 160) || (c =? 5760)
   || (8192 <=? c) && (c <=? 8202)
   || (c =? 8232) || (c =? 8233) || (c =? 8239) || (c =? 8287)
   || (c =? 12288))%N.

Fixpoint lstrip (s : str) : str :=
  match s with
  | c :: s' => if isspace c then lstrip s' else s
  | [] => []
  end.

(** [s.strip()] *)
Definition strip (s : str) : str :=
  rev (lstrip (rev (lstrip s))).

End PyStr.
Import PyStr.

(** ** Exceptions *)

(** The exception classes the program meets.  All of them derive from
    [Exception], so [except Exception] matches each; [HTTPError],
    [ConnectionError] and [RequestsTimeout] (the Timeout of requests) derive
    from [requests.RequestException]; [ParserRejectedMarkup] is what
    [BeautifulSoup] raises on markup its parser rejects.
    [KeyboardInterrupt] and [SystemExit],
    which the interpreter raises from outside the program, are not
    modelled. *)
Inductive exn_class :=
| RequestException
| HTTPError
| ConnectionError
| RequestsTimeout
| IndexError
| KeyError
| ValueError
| OSError
| ParserRejectedMarkup
| OtherException.

Record exn := mk_exn { exn_cls : exn_class; exn_msg : str }.

(** [isinstance(e, requests.RequestException)] *)
Definition is_RequestException (e : exn) : bool :=
  match exn_cls e with
  | RequestException | HTTPError | ConnectionError | RequestsTimeout => true
  | _ => false
  end.

(** [str(e)], as an f-string formats an exception. *)
Definition str_of_exn (e : exn) : str := exn_msg e.

Definition result (A : Type) : Type := (exn + A)%type.

(** [s.split(sep)] *)
Definition split (sep s : str) : result (list str) :=
  match sep with
  | [] => inl (mk_exn ValueError (lit "empty separator"))
  | _ :: _ => inr (split_scan sep 0 [] s)
  end.

(** [l[i]] *)
Definition getitem {A} (l : list A) (i : nat) : result A :=
  match nth_error l i with
  | Some x => inr x
  | None => inl (mk_exn IndexError (lit "list index out of range"))
  end.

(** [link.split("/d/")[1].split("/")[0]], line 42. *)
Definition drive_file_id (link : str) : result str :=
  match split (lit "/d/") link with
  | inl e => inl e
  | inr parts =>
      match getitem parts 1 with
      | inl e => inl e
      | inr tail =>
          match split (lit "/") tail with
          | inl e => inl e
          | inr pieces => getitem pieces 0
          end
      end
  end.

(** [os.path.join(a, b)] of [posixpath]. *)
Definition os_path_join (a b : str) : str :=
  if starts_with (lit "/") b then b
  else if match a with [] => true | _ => false end
          || starts_with (lit "/") (rev a)
       then a ++ b
       else a ++ lit "/" ++ b.

(** Sequencing of computations that can raise. *)
Definition rbind {A B} (r : result A) (k : A -> result B) : result B :=
  match r with
  | inl e => inl e
  | inr a => k a
  end.

Notation "x <-? r ;; k" := (rbind r (fun x => k))
  (at level 61, r at next level, right associativity).

(** [d.get(k)] on a dict with string keys and values, kept in insertion
    order. *)
Fixpoint dict_get (d : list (str * str)) (k : str) : option str :=
  match d with
  | [] => None
  | (k', v) :: d' => if str_eqb k' k then Some v else dict_get d' k
  end.

(** ** The parsed document (BeautifulSoup) *)

Module Soup.

(** A node of the tree that [BeautifulSoup(text, 'html.parser')] builds:
    a text string, a string [get_text] leaves out (a comment, a
    declaration), or a tag with its attributes and children.  The
    document itself is a tag. *)
Inductive node :=
| Text (s : str)
| Comment (s : str)
| Tag (name : str) (attrs : list (str * str)) (children : list node).

(** [n.descendants]: every node below [n], in document order. *)
Fixpoint descendants (n : node) : list node :=
  match n with
  | Tag _ _ cs => flat_map (fun c => c :: descendants c) cs
  | _ => []
  end.

Definition is_tag (name : str) (n : node) : bool :=
  match n with
  | Tag nm _ _ => str_eqb nm name
  | _ => false
  end.

Definition attr (n : node) (k : str) : option str :=
  match n with
  | Tag _ a _ => dict_get a k
  | _ => None
  end.

Definition has_attr (k : str) (n : node) : bool :=
  match attr n k with Some _ => true | None => false end.

(** [n.find_all(name)] *)
Definition find_all (name : str) (n : node) : list node :=
  filter (is_tag name) (descendants n).

(** [n.find(name, key=True)]: the first descendant tag called [name] that
    carries the attribute [key]. *)
Definition find_with_attr (name key : str) (n : node) : option node :=
  hd_error (filter (fun d => is_tag name d && has_attr key d) (descendants n)).

(** [tag[key]] *)
Definition tag_getitem (n : node) (k : str) : result str :=
  match attr n k with
  | Some v => inr v
  | None => inl (mk_exn KeyError k)
  end.

Definition text_of (n : node) : list str :=
  match n with
  | Text s => [s]
  | _ => []
  end.

Definition nonempty (s : str) : bool :=
  match s with [] => false | _ :: _ => true end.

(** [n.get_text(strip=True)]: the text strings below [n], each stripped,
    the empty ones dropped, joined without a separator. *)
Definition get_text_strip (n : node) : str :=
  concat (filter nonempty (map strip (flat_map text_of (descendants n)))).

End Soup.
Import Soup.

(** ** The link extractor: the loop of [get_pdf_links] (lines 83-93) *)

Definition link_entry : Type := (str * str)%type.

(** The body of [for tr in soup.find_all('tr')], on the list [links]
    built so far. *)
Definition scan_row (tr : node) (links : list link_entry) : result (list link_entry) :=
  let tds := find_all (lit "td") tr in
  if 2 <? length tds then
    td0 <-? getitem tds 0 ;;
    let name := get_text_strip td0 in
    td2 <-? getitem tds 2 ;;
    match find_with_attr (lit "a") (lit "href") td2 with
    | Some a_tag =>
        href <-? tag_getitem a_tag (lit "href") ;;
        inr (links ++ [(name, href)])
    | None => inr links
    end
  else inr links.

Fixpoint scan_loop (trs : list node) (links : list link_entry) : result (list link_entry) :=
  match trs with
  | [] => inr links
  | tr :: rest => links' <-? scan_row tr links ;; scan_loop rest links'
  end.

Definition scan_rows (soup : node) : result (list link_entry) :=
  scan_loop (find_all (lit "tr") soup) [].

(** ** The world: events, environment, state *)

(** What [requests.get] hands back. *)
Record response := mk_response {
  status_code : nat;
  reason : str;
  resp_url : str;
  text : str }.

(** The table a [pandas.DataFrame] holds: column labels and rows; a cell
    is [None] where pandas has NaN. *)
Record dataframe := mk_dataframe {
  columns : list str;
  data : list (list (option str)) }.

(** A CSV file read as a table: the fields of the header line and of each
    data line. *)
Record csv_file := mk_csv {
  csv_header : list str;
  csv_rows : list (list str) }.

Inductive event :=
| EvPrint (line : str)
| EvHttpGet (url : str) (timeout : nat)
| EvMakedirs (path : str)
| EvGdown (url output : str)
| EvSleep (seconds : nat)
| EvToCsv (path : str) (df : dataframe) (index : bool).

Definition trace := list event.

Inductive strategy_class : Set := GoogleDriveDownloader_class.

(** An instance of a [DownloadStrategy] subclass. *)
Inductive strategy : Set := GoogleDriveDownloader.

Definition instantiate (c : strategy_class) : strategy :=
  match c with
  | GoogleDriveDownloader_class => GoogleDriveDownloader
  end.

(** An instance of [DownloadStrategyFactory]; [_strategies] is a dict, kept
    in insertion order. *)
Record factory_obj := mk_factory {
  _strategies : list (str * strategy_class) }.

(** The process state: what has happened so far, the factory objects
    allocated (an object's address is its index), the class attribute
    [DownloadStrategyFactory._instance], and the files [to_csv] wrote, the
    newest first ([None] after a write that raised: what it left is not
    known). *)
Record state := mk_state {
  st_trace : trace;
  st_heap : list factory_obj;
  st_instance : option nat;
  st_files : list (str * option csv_file) }.

Definition initial_state : state :=
  {| st_trace := []; st_heap := []; st_instance := None; st_files := [] |}.

(** The outside world.  Every call is answered from the trace so far. *)
Record env := mk_env {
  requests_get : trace -> str -> nat -> result response;
  html_parser : str -> result node;
  gdown_download : trace -> str -> str -> result unit;
  os_makedirs : trace -> str -> result unit;
  to_csv : trace -> str -> dataframe -> bool -> result unit }.

(** ** The monad of effectful code *)

Definition M (A : Type) : Type := env -> state -> result A * state.

Definition ret {A} (a : A) : M A := fun _ s => (inr a, s).

Definition raise {A} (e : exn) : M A := fun _ s => (inl e, s).

Definition bind {A B} (m : M A) (k : A -> M B) : M B :=
  fun w s =>
    match m w s with
    | (inl e, s') => (inl e, s')
    | (inr a, s') => k a w s'
    end.

Notation "x <- m ;; k" := (bind m (fun x => k))
  (at level 61, m at next level, right associativity).
Notation "m ;;; k" := (bind m (fun _ => k))
  (at level 61, right associativity).

Definition lift {A} (r : result A) : M A := fun _ s => (r, s).

(** [try: body  except <class> as e: handler e]; [catches] tells whether
    the [except] clause matches. *)
Definition try_except {A} (body : M A) (catches : exn -> bool) (handler : exn -> M A) : M A :=
  fun w s =>
    match body w s with
    | (inl e, s') => if catches e then handler e w s' else (inl e, s')
    | (inr a, s') => (inr a, s')
    end.

Definition emit (ev : event) (s : state) : state :=
  {| st_trace := st_trace s ++ [ev];
     st_heap := st_heap s;
     st_instance := st_instance s;
     st_files := st_files s |}.

(** A call into the outside world: the event is recorded, the environment
    answers from the trace before the call. *)
Definition call {A} (ev : event) (answer : env -> trace -> result A) : M A :=
  fun w s => (answer w (st_trace s), emit ev s).

Definition print (line : str) : M unit :=
  fun _ s => (inr tt, emit (EvPrint line) s).

Definition time_sleep (seconds : nat) : M unit :=
  fun _ s => (inr tt, emit (EvSleep seconds) s).

(** [for x in l: acc = body x acc] *)
Fixpoint for_each {A S} (l : list A) (body : A -> S -> M S) (acc : S) : M S :=
  match l with
  | [] => ret acc
  | x :: l' => acc' <- body x acc ;; for_each l' body acc'
  end.

(** ** The observer: [DownloadObserver] and [DownloadLogger] (lines 11-29) *)

(** A row of the log: the dict [{"Nombre": name, "Estado": status}]. *)
Definition record : Type := list (str * str).

Class DownloadObserver (O : Type) := {
  update : O -> str -> str -> O }.

(** A [DownloadLogger] is its attribute [results]. *)
Record DownloadLogger := mk_logger { results : list record }.

Definition DownloadLogger_init : DownloadLogger := {| results := [] |}.

#[export] Instance DownloadLogger_observer : DownloadObserver DownloadLogger := {
  update l name status :=
    {| results := results l ++ [[(lit "Nombre", name); (lit "Estado", status)]] |} }.

(** The column labels [pandas.DataFrame] gives a list of dicts: the keys,
    in the order they are first met. *)
Fixpoint add_keys (seen keys : list str) : list str :=
  match keys with
  | [] => seen
  | k :: ks =>
      if existsb (str_eqb k) seen then add_keys seen ks
      else add_keys (seen ++ [k]) ks
  end.

Definition DataFrame_columns (records : list record) : list str :=
  fold_left (fun seen r => add_keys seen (map fst r)) records [].

(** [pd.DataFrame(records)] *)
Definition DataFrame (records : list record) : dataframe :=
  let cols := DataFrame_columns records in
  {| columns := cols;
     data := map (fun r => map (dict_get r) cols) records |}.

(** How [to_csv] writes a cell: NaN as the empty field. *)
Definition cell_text (c : option str) : str :=
  match c with Some v => v | None => [] end.

(** The file [df.to_csv(path, index=index)] writes: the column labels,
    then one line per row; with [index] each line begins with the row's
    number and the header with an empty label. *)
Definition csv_of (df : dataframe) (index : bool) : csv_file :=
  if index then
    {| csv_header := [] :: columns df;
       csv_rows :=
         map (fun ir => str_of_nat (fst ir) :: map cell_text (snd ir))
           (combine (seq 0 (length (data df))) (data df)) |}
  else
    {| csv_header := columns df;
       csv_rows := map (map cell_text) (data df) |}.

Definition write_file (path : str) (content : option csv_file) (s : state) : state :=
  {| st_trace := st_trace s;
     st_heap := st_heap s;
     st_instance := st_instance s;
     st_files := (path, content) :: st_files s |}.

Fixpoint lookup_file (files : list (str * option csv_file)) (path : str)
    : option (option csv_file) :=
  match files with
  | [] => None
  | (p, c) :: rest => if str_eqb p path then Some c else lookup_file rest path
  end.

(** What [to_csv] left at [path], if it wrote there. *)
Definition file_at (path : str) (s : state) : option (option csv_file) :=
  lookup_file (st_files s) path.

(** [df.to_csv(path, index=index)]: when the call returns the file is
    there, replacing what was at [path]. *)
Definition DataFrame_to_csv (df : dataframe) (path : str) (index : bool) : M unit :=
  fun w s =>
    let s1 := emit (EvToCsv path df index) s in
    match to_csv w (st_trace s) path df index with
    | inr _ => (inr tt, write_file path (Some (csv_of df index)) s1)
    | inl e => (inl e, write_file path None s1)
    end.

Definition save_to_csv (l : DownloadLogger) (folder : str) : M unit :=
  let df := DataFrame (results l) in
  let csv_path := os_path_join folder (lit "descargas_resultados.csv") in
  DataFrame_to_csv df csv_path false ;;;
  print (lit "Resultados guardados en " ++ csv_path).

(** ** The strategy: [GoogleDriveDownloader.download] (lines 38-51) *)

Definition Exitoso : str := lit "Exitoso".
Definition Fallido : str := lit "Fallido".
Definition No_soportado : str := lit "No soportado".

Definition drive_download_url (file_id : str) : str :=
  lit "https://drive.google.com/uc?id=" ++ file_id.

Definition GoogleDriveDownloader_download (name link folder : str) : M str :=
  try_except
    (file_id <- lift (drive_file_id link) ;;
     let download_url := drive_download_url file_id in
     let output := os_path_join folder (name ++ lit ".pdf") in
     print (lit "Inicio de la descarga: " ++ name) ;;;
     call (EvGdown download_url output)
          (fun w tr => gdown_download w tr download_url output) ;;;
     print (lit "Fin de la descarga: " ++ output) ;;;
     ret Exitoso)
    (fun _ => true)
    (fun e =>
       print (lit "Error al descargar " ++ name ++ lit ": " ++ str_of_exn e) ;;;
       ret Fallido).

(** [strategy.download(name, link, folder)], dispatched on the instance. *)
Definition download (st : strategy) (name link folder : str) : M str :=
  match st with
  | GoogleDriveDownloader => GoogleDriveDownloader_download name link folder
  end.

(** ** The singleton factory (lines 54-70) *)

Definition default_strategies : list (str * strategy_class) :=
  [(lit "drive.google.com", GoogleDriveDownloader_class)].

(** [DownloadStrategyFactory()]: [__new__] allocates and fills the instance
    when the class attribute is [None], and returns the class attribute. *)
Definition DownloadStrategyFactory_new : M nat :=
  fun _ s =>
    match st_instance s with
    | None =>
        let a := length (st_heap s) in
        (inr a,
         {| st_trace := st_trace s;
            st_heap := st_heap s ++ [{| _strategies := default_strategies |}];
            st_instance := Some a;
            st_files := st_files s |})
    | Some a => (inr a, s)
    end.

(** The loop of [get_strategy] over [self._strategies.items()]. *)
Fixpoint first_match (items : list (str * strategy_class)) (link : str) : option strategy :=
  match items with
  | [] => None
  | (source, cls) :: rest =>
      if contains source link then Some (instantiate cls)
      else first_match rest link
  end.

Definition get_strategy (self : nat) (link : str) : M (option strategy) :=
  fun _ s =>
    match nth_error (st_heap s) self with
    | Some obj => (inr (first_match (_strategies obj) link), s)
    | None => (inl (mk_exn OtherException (lit "_strategies")), s)
    end.

(** ** Scraper and orchestrator (lines 73-122) *)

(** [response.raise_for_status()] *)
Definition raise_for_status (r : response) : result unit :=
  let sc := status_code r in
  if (400 <=? sc) && (sc <? 500) then
    inl (mk_exn HTTPError
           (str_of_nat sc ++ lit " Client Error: " ++ reason r
            ++ lit " for url: " ++ resp_url r))
  else if (500 <=? sc) && (sc <? 600) then
    inl (mk_exn HTTPError
           (str_of_nat sc ++ lit " Server Error: " ++ reason r
            ++ lit " for url: " ++ resp_url r))
  else inr tt.

(** The text printed when the page cannot be fetched; 225 is the
    a-acute of the source's message. *)
Definition page_error_prefix : str :=
  lit "Error al acceder a la p" ++ [225%N] ++ lit "gina: ".

Definition get_pdf_links (url : str) : M (list link_entry) :=
  fetched <-
    try_except
      (response <- call (EvHttpGet url 10) (fun w tr => requests_get w tr url 10) ;;
       lift (raise_for_status response) ;;;
       ret (Some response))
      is_RequestException
      (fun e => print (page_error_prefix ++ str_of_exn e) ;;; ret None) ;;
  match fetched with
  | None => ret []
  | Some response =>
      soup <- (fun w => lift (html_parser w (text response)) w) ;;
      lift (scan_rows soup)
  end.

(** The body of the loop of [download_pdfs]. *)
Definition download_item (factory : nat) (folder : str) (delay : nat)
    (item : link_entry) (logger : DownloadLogger) : M DownloadLogger :=
  let '(name, link) := item in
  strategy <- get_strategy factory link ;;
  status <-
    match strategy with
    | Some st => download st name link folder
    | None => ret No_soportado
    end ;;
  let logger := update logger name status in
  time_sleep delay ;;;
  ret logger.

Definition download_pdfs (links : list link_entry) (folder : str) (delay : nat) : M unit :=
  call (EvMakedirs folder) (fun w tr => os_makedirs w tr folder) ;;;
  factory <- DownloadStrategyFactory_new ;;
  let logger := DownloadLogger_init in
  logger <- for_each links (download_item factory folder delay) logger ;;
  save_to_csv logger folder.

Definition page_url : str :=
  lit "https://secretariadesalud.chubut.gov.ar/epidemiological_releases".

Definition main : M unit :=
  links <- get_pdf_links page_url ;;
  match links with
  | [] => print (lit "No se encontraron enlaces de descarga.")
  | _ :: _ =>
      download_pdfs links (lit "pdfs") 2 ;;;
      print (lit "Descarga completada.")
  end.

(** ** Specification vocabulary *)

(** [sub] occurs in [s]. *)
Definition occurs (sub s : str) : Prop :=
  exists a b, s = a ++ sub ++ b.

(** The target of the first hyperlink below a cell: the [href] of the
    first [a] tag that has one. *)
Definition first_hyperlink (cell : node) : option str :=
  match find_with_attr (lit "a") (lit "href") cell with
  | Some a_tag => attr a_tag (lit "href")
  | None => None
  end.

(** What one row contributes, counting as its cells all [td] tags below
    the row, in document order. *)
Definition row_entry (tr : node) : list link_entry :=
  match find_all (lit "td") tr with
  | c0 :: _ :: c2 :: _ =>
      match first_hyperlink c2 with
      | Some url => [(get_text_strip c0, url)]
      | None => []
      end
  | _ => []
  end.

Definition row_links (soup : node) : list link_entry :=
  flat_map row_entry (find_all (lit "tr") soup).

(** The same, counting as a row's cells only its [td] children. *)
Definition td_children (tr : node) : list node :=
  match tr with
  | Tag _ _ cs => filter (is_tag (lit "td")) cs
  | _ => []
  end.

Definition row_entry_children (tr : node) : list link_entry :=
  match td_children tr with
  | c0 :: _ :: c2 :: _ =>
      match first_hyperlink c2 with
      | Some url => [(get_text_strip c0, url)]
      | None => []
      end
  | _ => []
  end.

Definition row_links_children (soup : node) : list link_entry :=
  flat_map row_entry_children (find_all (lit "tr") soup).

(** The logger after one [update] per pair, in order. *)
Definition log_of (calls : list (str * str)) : DownloadLogger :=
  fold_left (fun l c => update l (fst c) (snd c)) calls DownloadLogger_init.

(** The test of [find('a', href=True)] on one node. *)
Definition href_anchor (d : node) : bool :=
  is_tag (lit "a") d && has_attr (lit "href") d.

(** The columns of the report. *)
Definition two_columns : list str := [lit "Nombre"; lit "Estado"].

(** The table of N updates: a row per update, in call order, under the
    two columns; no columns when there was no update. *)
Definition log_table (calls : list (str * str)) : dataframe :=
  {| columns := match calls with [] => [] | _ :: _ => two_columns end;
     data := map (fun c => [Some (fst c); Some (snd c)]) calls |}.

(** The factory object at address [factory] is [obj]. *)
Definition has_factory (factory : nat) (obj : factory_obj) (s : state) : Prop :=
  nth_error (st_heap s) factory = Some obj.

(** [m] keeps [P] true, whatever it returns or raises. *)
Definition preserves {A} (P : state -> Prop) (m : M A) : Prop :=
  forall w s r s', P s -> m w s = (r, s') -> P s'.

(** Events that touch the file system. *)
Definition writes_files (ev : event) : bool :=
  match ev with
  | EvMakedirs _ | EvGdown _ _ | EvToCsv _ _ _ => true
  | _ => false
  end.

(** None of the events touches the file system. *)
Definition quiet (added : trace) : Prop :=
  forallb (fun ev => negb (writes_files ev)) added = true.

(** The factory is either not built yet, or built once and untouched. *)
Definition factory_ok (s : state) : Prop :=
  (st_instance s = None /\ st_heap s = [])
  \/ (st_instance s = Some 0 /\ st_heap s = [mk_factory default_strategies]).

(** One call of a function of the module. *)
Inductive step (w : env) : state -> state -> Prop :=
| step_new s r s' :
    DownloadStrategyFactory_new w s = (r, s') -> step w s s'
| step_get_strategy self link s r s' :
    st_instance s = Some self ->
    get_strategy self link w s = (r, s') -> step w s s'
| step_download st name link folder s r s' :
    download st name link folder w s = (r, s') -> step w s s'
| step_get_pdf_links url s r s' :
    get_pdf_links url w s = (r, s') -> step w s s'
| step_download_pdfs links folder delay s r s' :
    download_pdfs links folder delay w s = (r, s') -> step w s s'
| step_save_to_csv l folder s r s' :
    save_to_csv l folder w s = (r, s') -> step w s s'
| step_main s r s' :
    main w s = (r, s') -> step w s s'.

(** The states a process can be in: it starts in [initial_state] and
    calls functions of the module. *)
Inductive reachable (w : env) : state -> Prop :=
| reach_init : reachable w initial_state
| reach_step s s' : reachable w s -> step w s s' -> reachable w s'.

(** ** Test worlds *)

(** A world where the page fetch gives [page], the parser gives [soup],
    every transfer is answered by [transfer] from the download URL, and
    the file system never fails. *)
Definition test_env (page : result response) (soup : node)
    (transfer : str -> result unit) : env :=
  {| requests_get := fun _ _ _ => page;
     html_parser := fun _ => inr soup;
     gdown_download := fun _ url _ => transfer url;
     os_makedirs := fun _ _ => inr tt;
     to_csv := fun _ _ _ _ => inr tt |}.

Definition ok_page : response :=
  {| status_code := 200; reason := lit "OK"; resp_url := page_url; text := [] |}.

Definition page_500 : response :=
  {| status_code := 500; reason := lit "Internal Server Error";
     resp_url := page_url; text := [] |}.

Definition document (children : list node) : node :=
  Tag (lit "[document]") [] children.

Definition td (children : list node) : node := Tag (lit "td") [] children.
Definition tr (children : list node) : node := Tag (lit "tr") [] children.
Definition table (children : list node) : node := Tag (lit "table") [] children.
Definition a_href (url : str) (children : list node) : node :=
  Tag (lit "a") [(lit "href", url)] children.

(** One row: a name, a date, a Drive link. *)
Definition bulletin_row (name url : str) : node :=
  tr [td [Text name]; td [Text (lit "2024")]; td [a_href url [Text (lit "PDF")]]].

(** A row with two cells whose second cell holds a nested table:
    [<tr><td>Name</td><td><table><tr><td><a href="u">pdf</a></td></tr></table></td></tr>] *)
Definition nested_soup : node :=
  document
    [table
       [tr [td [Text (lit "Name")];
            td [table [tr [td [a_href (lit "u") [Text (lit "pdf")]]]]]]]].

Definition nested_world : env :=
  test_env (inr ok_page) nested_soup (fun _ => inr tt).

Definition one_row_world : env :=
  test_env (inr ok_page)
    (document [table [bulletin_row (lit "B1") (lit "https://x/1")]])
    (fun _ => inr tt).

(** Scenario A of the specification: the page fetch answers HTTP 500. *)
Definition http500_world : env :=
  test_env (inr page_500) (document []) (fun _ => inr tt).

(** The state once the factory is built. *)
Definition built_state : state :=
  snd (DownloadStrategyFactory_new http500_world initial_state).

(** A world where the transfer of the file [BAD] fails and every other
    transfer succeeds; the page has the rows given. *)
Definition failing_transfer (url : str) : result unit :=
  if str_eqb url (drive_download_url (lit "BAD"))
  then inl (mk_exn OSError (lit "disk full"))
  else inr tt.

Definition rows_world (rows : list node) : env :=
  test_env (inr ok_page) (document [table rows]) failing_transfer.

Definition abc_link : str := lit "https://drive.google.com/file/d/ABC123/view".

(** A row whose third cell has an anchor without [href] before one with:
    [<tr><td>B1</td><td></td><td><a name="top">x</a><a href="u">pdf</a></td></tr>] *)
Definition anchors_row : node :=
  tr [td [Text (lit "B1")]; td [];
      td [Tag (lit "a") [(lit "name", lit "top")] [Text (lit "x")];
          a_href (lit "u") [Text (lit "pdf")]]].

(** ** Vocabulary of the further properties *)

(** [sep.join(pieces)] *)
Fixpoint join (sep : str) (pieces : list str) : str :=
  match pieces with
  | [] => []
  | p :: rest =>
      match rest with
      | [] => p
      | _ :: _ => p ++ sep ++ join sep rest
      end
  end.

(** [s] does not begin with whitespace. *)
Definition no_lead (s : str) : Prop :=
  match s with
  | [] => True
  | c :: _ => isspace c = false
  end.

(** [s] neither begins nor ends with whitespace. *)
Definition stripped (s : str) : Prop := no_lead s /\ no_lead (rev s).

Definition is_sleep (ev : event) : bool :=
  match ev with EvSleep _ => true | _ => false end.

Definition is_gdown (ev : event) : bool :=
  match ev with EvGdown _ _ => true | _ => false end.

Definition is_to_csv (ev : event) : bool :=
  match ev with EvToCsv _ _ _ => true | _ => false end.

(** [chosen] is [l] without the elements that fail [P], in the same
    order. *)
Inductive select {A} (P : A -> Prop) : list A -> list A -> Prop :=
| select_nil : select P [] []
| select_keep x l chosen :
    P x -> select P l chosen -> select P (x :: l) (x :: chosen)
| select_skip x l chosen :
    ~ P x -> select P l chosen -> select P (x :: l) chosen.

(** The link of the item holds the Drive host and "/d/". *)
Definition drive_link (item : link_entry) : Prop :=
  occurs (lit "drive.google.com") (snd item) /\ occurs (lit "/d/") (snd item).

(** [ident] is the text of [link] between its first "/d/" and the next
    "/" behind it, or the end of the link. *)
Definition identifier_of (link ident : str) : Prop :=
  exists pre rest,
    link = pre ++ lit "/d/" ++ ident ++ rest
    /\ (forall a b, link = a ++ lit "/d/" ++ b -> length pre <= length a)
    /\ ~ occurs (lit "/") ident
    /\ (rest = [] \/ exists r, rest = lit "/" ++ r).

(** [ev] is the transfer of the Drive file of the item to
    [folder]/<name>.pdf. *)
Definition transfer_of (folder : str) (item : link_entry) (ev : event) : Prop :=
  exists ident,
    identifier_of (snd item) ident
    /\ ev = EvGdown (lit "https://drive.google.com/uc?id=" ++ ident)
               (os_path_join folder (fst item ++ lit ".pdf")).

(** The three values of the column Estado. *)
Definition known_status (status : str) : Prop :=
  status = Exitoso \/ status = Fallido \/ status = No_soportado.

(** What the loop of [download_pdfs] may do for the items [links]: print,
    sleep [delay], and transfer the Drive file of one of the links to
    [folder]/<its name>.pdf. *)
Definition loop_event (links : list link_entry) (folder : str) (delay : nat)
    (ev : event) : Prop :=
  match ev with
  | EvPrint _ => True
  | EvSleep n => n = delay
  | EvGdown url output =>
      exists name link file_id,
        In (name, link) links
        /\ occurs (lit "drive.google.com") link
        /\ drive_file_id link = inr file_id
        /\ url = drive_download_url file_id
        /\ output = os_path_join folder (name ++ lit ".pdf")
  | _ => False
  end.

(** What [download_pdfs] may do: the loop's events, creating [folder] and
    writing the report in it. *)
Definition download_pdfs_event (links : list link_entry) (folder : str) (delay : nat)
    (ev : event) : Prop :=
  match ev with
  | EvMakedirs path => path = folder
  | EvToCsv path _ index =>
      path = os_path_join folder (lit "descargas_resultados.csv") /\ index = false
  | _ => loop_event links folder delay ev
  end.

(** The factory at address [factory] holds the registered mapping. *)
Definition built (factory : nat) (s : state) : Prop :=
  has_factory factory (mk_factory default_strategies) s.

(** Where [save_to_csv] writes the report. *)
Definition report_path (folder : str) : str :=
  os_path_join folder (lit "descargas_resultados.csv").

(** The table of the report for the items [links] with the outcomes
    [statuses]. *)
Definition report (links : list link_entry) (statuses : list str) : dataframe :=
  {| columns := match links with [] => [] | _ :: _ => two_columns end;
     data := map (fun c => [Some (fst c); Some (snd c)])
               (combine (map fst links) statuses) |}.

(** A world whose page fetch raises something that is no
    [RequestException]. *)
Definition crash_world : env :=
  test_env (inl (mk_exn ValueError (lit "bad url"))) (document [])
    (fun _ => inr tt).

(** A world whose page is fetched and then rejected by the parser. *)
Definition rejected_world : env :=
  {| requests_get := fun _ _ _ => inr ok_page;
     html_parser := fun _ => inl (mk_exn ParserRejectedMarkup (lit "rejected"));
     gdown_download := fun _ _ _ => inr tt;
     os_makedirs := fun _ _ => inr tt;
     to_csv := fun _ _ _ _ => inr tt |}.

(** A world with one Drive row whose report cannot be written. *)
Definition readonly_world : env :=
  {| requests_get := fun _ _ _ => inr ok_page;
     html_parser := fun _ => inr (document [table [bulletin_row (lit "B1") abc_link]]);
     gdown_download := fun _ _ _ => inr tt;
     os_makedirs := fun _ _ => inr tt;
     to_csv := fun _ _ _ _ => inl (mk_exn OSError (lit "read-only file system")) |}.

(** A row whose first cell holds two text strings with blanks around
    them: [<tr><td> Bolet <b> 12 </b></td><td></td><td><a href="u">x</a></td></tr>] *)
Definition spaced_soup : node :=
  document
    [table
       [tr [td [Text (lit " Bolet "); Tag (lit "b") [] [Text (lit " 12 ")]];
            td [];
            td [a_href (lit "u") [Text (lit "x")]]]]].

(** Scenario D of the specification: two Drive rows, the first transfer
    fails. *)
Definition scenario_D_soup : node :=
  document
    [table
       [bulletin_row (lit "B1") (lit "https://drive.google.com/file/d/BAD/view");
        bulletin_row (lit "B2") (lit "https://drive.google.com/file/d/GOOD/view")]].

Definition scenario_D_world : env :=
  test_env (inr ok_page) scenario_D_soup failing_transfer.

Definition three_links : list link_entry :=
  [(lit "B1", lit "https://drive.google.com/file/d/BAD/view");
   (lit "B2", lit "https://example.com/file.pdf");
   (lit "B3", lit "https://drive.google.com/open?id=GOOD")].

(** * Properties *)

Ltac unfold_m :=
  unfold bind, try_except, call, print, time_sleep, lift, ret, raise.

(** ** Strings: prefixes, occurrences, [split] *)

Section StringFacts.

Lemma starts_with_iff (p s : str) :
  starts_with p s = true <-> exists t, s = p ++ t.
Proof.
  revert s; induction p as [|a p IH]; intros s; simpl.
  - split; [intros _; now exists s | reflexivity].
  - destruct s as [|b s]; split.
    + discriminate.
    + intros [t Ht]; discriminate.
    + intros H. apply andb_true_iff in H as [Hab Hp].
      apply N.eqb_eq in Hab; subst b.
      apply IH in Hp as [t ->]. now exists t.
    + intros [t Ht]. injection Ht as -> ->.
      rewrite N.eqb_refl; simpl. apply IH. now exists t.
Qed.

Lemma starts_with_app (p t : str) : starts_with p (p ++ t) = true.
Proof. apply starts_with_iff. now exists t. Qed.

(** [find] returns the place of an occurrence, and no occurrence starts
    before it. *)
Lemma find_Some (sub s : str) (i : nat) :
  find sub s = Some i ->
  exists post,
    s = firstn i s ++ sub ++ post /\ length (firstn i s) = i /\
    skipn (i + length sub) s = post /\
    forall a b, s = a ++ sub ++ b -> i <= length a.
Proof.
  revert i; induction s as [|c s IH]; intros i; simpl.
  - destruct (starts_with sub []) eqn:E; [|discriminate].
    intros [= <-]. apply starts_with_iff in E as [t Ht].
    destruct sub; [|discriminate]. exists []. simpl. repeat split; auto. lia.
  - destruct (starts_with sub (c :: s)) eqn:E.
    + intros [= <-]. apply starts_with_iff in E as [t Ht].
      exists t. simpl. repeat split; auto; try lia.
      rewrite Ht. clear. induction sub; simpl; auto.
    + destruct (find sub s) as [j|] eqn:F; simpl; [|discriminate].
      intros [= <-]. destruct (IH j eq_refl) as (post & Hs & Hl & Hk & Hmin).
      exists post. simpl. repeat split.
      * now rewrite <- Hs.
      * now rewrite Hl.
      * exact Hk.
      * intros a b Hab. destruct a as [|a0 a].
        -- simpl in Hab. rewrite Hab, starts_with_app in E. discriminate.
        -- simpl in Hab. injection Hab as _ Hab. apply Hmin in Hab. simpl; lia.
Qed.

Lemma find_None (sub s : str) :
  find sub s = None -> forall a b, s <> a ++ sub ++ b.
Proof.
  induction s as [|c s IH]; simpl.
  - destruct (starts_with sub []) eqn:E; [discriminate|].
    intros _ a b H. destruct a; [|discriminate].
    simpl in H. rewrite H, starts_with_app in E. discriminate.
  - destruct (starts_with sub (c :: s)) eqn:E; [discriminate|].
    destruct (find sub s) eqn:F; simpl; [discriminate|].
    intros _ a b H. destruct a as [|a0 a].
    + simpl in H. rewrite H, starts_with_app in E. discriminate.
    + simpl in H. injection H as _ H. now apply (IH eq_refl a b).
Qed.

(** The operator [in] decides occurrence. *)
Lemma contains_iff (sub s : str) : contains sub s = true <-> occurs sub s.
Proof.
  unfold contains, occurs. destruct (find sub s) as [i|] eqn:F; split.
  - intros _. destruct (find_Some _ _ _ F) as (post & Hs & _).
    now exists (firstn i s), post.
  - reflexivity.
  - discriminate.
  - intros (a & b & H). now apply (find_None _ _ F) in H.
Qed.

Lemma contains_false (sub s : str) :
  ~ occurs sub s -> contains sub s = false.
Proof.
  intros H. destruct (contains sub s) eqn:E; auto.
  apply contains_iff in E. contradiction.
Qed.

(** While [skip] characters of a separator remain, the scanner only
    moves on. *)
Lemma split_scan_skip (sep : str) (k : nat) (cur s : str) :
  k <= length s ->
  split_scan sep k cur s = split_scan sep 0 cur (skipn k s).
Proof.
  revert s; induction k as [|k IH]; intros s Hk.
  - reflexivity.
  - destruct s as [|c s]; simpl in *; [lia|]. apply IH. lia.
Qed.

(** [split] cuts at the first occurrence and goes on behind it. *)
Lemma split_scan_find (sep : str) (cur s : str) :
  sep <> [] ->
  split_scan sep 0 cur s =
  match find sep s with
  | None => [rev cur ++ s]
  | Some i => (rev cur ++ firstn i s) :: split_scan sep 0 [] (skipn (i + length sep) s)
  end.
Proof.
  intros Hsep. revert cur; induction s as [|c s IH]; intros cur.
  - simpl. destruct sep; [contradiction|]. simpl. now rewrite app_nil_r.
  - cbn [split_scan find].
    destruct (starts_with sep (c :: s)) eqn:E.
    + simpl firstn. rewrite app_nil_r. f_equal.
      destruct sep as [|x sep]; [contradiction|].
      apply starts_with_iff in E as [t Ht]. simpl in Ht. injection Ht as -> ->.
      simpl. rewrite Nat.sub_0_r. rewrite split_scan_skip.
      * reflexivity.
      * rewrite length_app. lia.
    + rewrite IH. destruct (find sep s) as [j|]; simpl.
      * now rewrite <- app_assoc.
      * now rewrite <- app_assoc.
Qed.

(** The first piece of a split: the text before the first separator. *)
Lemma split_scan_head (sep s : str) :
  sep <> [] ->
  exists piece more rest,
    split_scan sep 0 [] s = piece :: more /\
    s = piece ++ rest /\
    (rest = [] \/ exists r, rest = sep ++ r /\ more = split_scan sep 0 [] r) /\
    (rest = [] -> more = [] /\ ~ occurs sep s) /\
    (forall a b, s = a ++ sep ++ b -> length piece <= length a).
Proof.
  intros Hsep. rewrite (split_scan_find sep [] s Hsep). simpl.
  destruct (find sep s) as [i|] eqn:F.
  - destruct (find_Some _ _ _ F) as (post & Hs & Hl & Hk & Hmin).
    exists (firstn i s), (split_scan sep 0 [] post), (sep ++ post).
    rewrite Hk. split; [reflexivity|]. split; [exact Hs|].
    split; [right; now exists post|]. split.
    + intros H. destruct sep; [contradiction | discriminate].
    + intros a b H. rewrite Hl. now apply Hmin in H.
  - exists s, [], []. rewrite app_nil_r.
    split; [reflexivity|]. split; [reflexivity|]. split; [now left|]. split.
    + intros _. split; [reflexivity|].
      intros (a & b & H). now apply (find_None _ _ F) in H.
    + intros a b H. now apply (find_None _ _ F) in H.
Qed.

End StringFacts.

(** ** The Drive file identifier *)

Lemma lit_slash_d_nonempty : lit "/d/" <> [].
Proof. discriminate. Qed.

Lemma lit_slash_nonempty : lit "/" <> [].
Proof. discriminate. Qed.

Lemma drive_file_id_pieces (link : str) :
  drive_file_id link =
  (tail <-? getitem (split_scan (lit "/d/") 0 [] link) 1 ;;
   getitem (split_scan (lit "/") 0 [] tail) 0).
Proof. reflexivity. Qed.

(** C2. For every link in which "/d/" occurs, the identifier derived on
    line 42 is the text between the first occurrence of "/d/" and the next
    "/" behind it, or the end of the link when no "/" follows. *)
Theorem drive_file_id_between (link : str) :
  occurs (lit "/d/") link ->
  exists pre ident rest,
    link = pre ++ lit "/d/" ++ ident ++ rest /\
    (forall a b, link = a ++ lit "/d/" ++ b -> length pre <= length a) /\
    ~ occurs (lit "/") ident /\
    (rest = [] \/ exists r, rest = lit "/" ++ r) /\
    drive_file_id link = inr ident.
Proof.
  intros Hocc.
  destruct (split_scan_head (lit "/d/") link lit_slash_d_nonempty)
    as (pre & more0 & rest0 & Hsplit0 & Hlink & Hrest0 & Hnil0 & Hmin0).
  destruct Hrest0 as [-> | (r & -> & ->)].
  { destruct (Hnil0 eq_refl) as [_ Hno]. contradiction. }
  destruct (split_scan_head (lit "/d/") r lit_slash_d_nonempty)
    as (tail & more1 & rest1 & Hsplit1 & Hr & Hrest1 & _ & _).
  destruct (split_scan_head (lit "/") tail lit_slash_nonempty)
    as (ident & more2 & rest2 & Hsplit2 & Htail & Hrest2 & _ & Hmin2).
  exists pre, ident, (rest2 ++ rest1).
  split; [|split; [|split; [|split]]].
  - rewrite Hlink, Hr, Htail. now rewrite <- !app_assoc.
  - exact Hmin0.
  - intros (a & b & Hab).
    assert (Hle : length ident <= length a).
    { apply (Hmin2 a (b ++ rest2)). rewrite Htail, Hab. now rewrite <- !app_assoc. }
    rewrite Hab, !length_app in Hle. simpl in Hle. lia.
  - destruct Hrest2 as [-> | (r2 & -> & _)].
    + destruct Hrest1 as [-> | (r1 & -> & _)].
      * now left.
      * right. now exists (lit "d/" ++ r1).
    + right. exists (r2 ++ rest1). now rewrite <- app_assoc.
  - rewrite drive_file_id_pieces, Hsplit0, Hsplit1. simpl.
    now rewrite Hsplit2.
Qed.

Lemma drive_file_id_between_witness :
  occurs (lit "/d/") abc_link /\
  exists pre ident rest,
    abc_link = pre ++ lit "/d/" ++ ident ++ rest /\
    (forall a b, abc_link = a ++ lit "/d/" ++ b -> length pre <= length a) /\
    ~ occurs (lit "/") ident /\
    (rest = [] \/ exists r, rest = lit "/" ++ r) /\
    drive_file_id abc_link = inr ident.
Proof.
  assert (H : occurs (lit "/d/") abc_link).
  { exists (lit "https://drive.google.com/file"), (lit "ABC123/view"). reflexivity. }
  split; [exact H | exact (drive_file_id_between abc_link H)].
Defined.

Example drive_file_id_view :
  drive_file_id (lit "https://drive.google.com/file/d/ABC123/view") = inr (lit "ABC123").
Proof. reflexivity. Qed.

Example drive_file_id_no_slash :
  drive_file_id (lit "https://drive.google.com/file/d/ABC123") = inr (lit "ABC123").
Proof. reflexivity. Qed.

Example drive_file_id_repeated :
  drive_file_id (lit "https://h/d/d/d/x") = inr (lit "d").
Proof. reflexivity. Qed.

Example drive_file_id_missing :
  drive_file_id (lit "https://drive.google.com/open?id=ABC123")
  = inl (mk_exn IndexError (lit "list index out of range")).
Proof. reflexivity. Qed.

(** ** The link extractor *)

Section FirstMatch.

Context {A : Type} (f : A -> bool).

Lemma hd_filter_Some (l : list A) (a : A) :
  hd_error (filter f l) = Some a <->
  f a = true /\
  exists pre post, l = pre ++ a :: post /\ forall d, In d pre -> f d = false.
Proof.
  induction l as [|x l IH]; simpl.
  - split; [discriminate|]. intros (_ & pre & post & H & _).
    destruct pre; discriminate.
  - destruct (f x) eqn:Fx; simpl.
    + split.
      * intros [= ->]. split; [exact Fx|]. exists [], l. split; [reflexivity|].
        intros d [].
      * intros (Fa & pre & post & H & Hpre). destruct pre as [|p pre].
        -- simpl in H. now injection H as ->.
        -- simpl in H. injection H as <- _.
           rewrite (Hpre x (or_introl eq_refl)) in Fx. discriminate.
    + rewrite IH. split.
      * intros (Fa & pre & post & -> & Hpre). split; [exact Fa|].
        exists (x :: pre), post. split; [reflexivity|].
        intros d [<- | Hd]; auto.
      * intros (Fa & pre & post & H & Hpre). split; [exact Fa|].
        destruct pre as [|p pre].
        -- simpl in H. injection H as -> _. rewrite Fa in Fx. discriminate.
        -- simpl in H. injection H as -> ->. exists pre, post.
           split; [reflexivity|]. intros d Hd. apply Hpre. now right.
Qed.

Lemma hd_filter_None (l : list A) :
  hd_error (filter f l) = None <-> forall d, In d l -> f d = false.
Proof.
  induction l as [|x l IH]; simpl.
  - split; [intros _ d [] | reflexivity].
  - destruct (f x) eqn:Fx; simpl.
    + split; [discriminate|]. intros H.
      rewrite (H x (or_introl eq_refl)) in Fx. discriminate.
    + rewrite IH. split.
      * intros H d [<- | Hd]; auto.
      * intros H d Hd. apply H. now right.
Qed.

End FirstMatch.

Lemma href_anchor_false (d : node) :
  (is_tag (lit "a") d = true -> attr d (lit "href") = None) ->
  href_anchor d = false.
Proof.
  unfold href_anchor, has_attr. intros H.
  destruct (is_tag (lit "a") d); [|reflexivity].
  now rewrite (H eq_refl).
Qed.

(** What [find('a', href=True)] finds has an [href]. *)
Lemma find_with_attr_has (name key : str) (n a : node) :
  find_with_attr name key n = Some a -> exists v, attr a key = Some v.
Proof.
  unfold find_with_attr. intros H. apply hd_filter_Some in H as [H _].
  apply andb_true_iff in H as [_ H]. unfold has_attr in H.
  destruct (attr a key) as [v|]; [now exists v | discriminate].
Qed.

(** One turn of the loop appends what the row contributes, and does not
    raise. *)
Lemma scan_row_entry (row : node) (links : list link_entry) :
  scan_row row links = inr (links ++ row_entry row).
Proof.
  unfold scan_row, row_entry, first_hyperlink.
  destruct (find_all (lit "td") row) as [|c0 [|c1 [|c2 rest]]]; simpl;
    try now rewrite app_nil_r.
  destruct (find_with_attr (lit "a") (lit "href") c2) as [a|] eqn:F.
  - destruct (find_with_attr_has _ _ _ _ F) as [v Hv].
    unfold tag_getitem. now rewrite Hv.
  - now rewrite app_nil_r.
Qed.

Lemma scan_loop_entries (rows : list node) (links : list link_entry) :
  scan_loop rows links = inr (links ++ flat_map row_entry rows).
Proof.
  revert links; induction rows as [|row rows IH]; intros links; simpl.
  - now rewrite app_nil_r.
  - rewrite scan_row_entry. simpl. rewrite IH. now rewrite <- app_assoc.
Qed.

Lemma scan_rows_links (soup : node) : scan_rows soup = inr (row_links soup).
Proof. unfold scan_rows. now rewrite scan_loop_entries. Qed.

(** A row gives no entry or one. *)
Lemma row_entry_at_most_one (row : node) : length (row_entry row) <= 1.
Proof.
  unfold row_entry.
  destruct (find_all (lit "td") row) as [|c0 [|c1 [|c2 rest]]]; simpl; auto.
  destruct (first_hyperlink c2); simpl; auto.
Qed.

(** C1, as the code has it. When the page is fetched without error and
    the parser accepts it, get_pdf_links returns, for the rows of the
    parsed page in document order, one (name, url) pair for each row with
    more than two td tags below it whose third such tag holds a hyperlink:
    name is made of the text strings below the first of these tags, each
    stripped, the empty ones dropped, joined without separator; url is the
    href of the first hyperlink in the third.  Every other row gives
    nothing. *)
Theorem get_pdf_links_rows (w : env) (s : state) (url : str) (r : response)
    (soup : node) :
  requests_get w (st_trace s) url 10 = inr r ->
  raise_for_status r = inr tt ->
  html_parser w (text r) = inr soup ->
  get_pdf_links url w s
  = (inr (row_links soup), emit (EvHttpGet url 10) s).
Proof.
  intros Hget Hstatus Hparse.
  unfold get_pdf_links, bind, try_except, call, lift, ret.
  rewrite Hget, Hstatus, Hparse. now rewrite scan_rows_links.
Qed.

Lemma get_pdf_links_rows_witness :
  (requests_get one_row_world (st_trace initial_state) page_url 10 = inr ok_page
   /\ raise_for_status ok_page = inr tt
   /\ html_parser one_row_world (text ok_page)
      = inr (document [table [bulletin_row (lit "B1") (lit "https://x/1")]]))
  /\ get_pdf_links page_url one_row_world initial_state
     = (inr (row_links (document [table [bulletin_row (lit "B1") (lit "https://x/1")]])),
        emit (EvHttpGet page_url 10) initial_state).
Proof.
  assert (H1 : requests_get one_row_world (st_trace initial_state) page_url 10
               = inr ok_page) by reflexivity.
  assert (H2 : raise_for_status ok_page = inr tt) by reflexivity.
  assert (H3 : html_parser one_row_world (text ok_page)
               = inr (document [table [bulletin_row (lit "B1") (lit "https://x/1")]]))
    by reflexivity.
  split; [repeat split; assumption|].
  exact (get_pdf_links_rows one_row_world initial_state page_url ok_page _ H1 H2 H3).
Defined.

Example get_pdf_links_one_row :
  fst (get_pdf_links page_url one_row_world initial_state)
  = inr [(lit "B1", lit "https://x/1")].
Proof. reflexivity. Qed.

(** The claim C1 as worded fails: a row with only two td children, whose second
    cell holds a nested table with a link, gives an entry. *)
Lemma get_pdf_links_children_counterexample :
  html_parser nested_world (text ok_page) = inr nested_soup
  /\ fst (get_pdf_links page_url nested_world initial_state)
     <> inr (row_links_children nested_soup).
Proof. split; [reflexivity | discriminate]. Qed.

Example nested_soup_extracted :
  fst (get_pdf_links page_url nested_world initial_state)
  = inr [(lit "Name", lit "u")].
Proof. reflexivity. Qed.

Example nested_soup_by_children : row_links_children nested_soup = [].
Proof. reflexivity. Qed.

(** C10. In a row with at least three td tags, the url is the href of the
    first anchor below the third of them that has an href: anchors
    without href before it are passed over; when no anchor below it has an
    href the row adds nothing. *)
Theorem scan_row_first_href_anchor
    (row c0 c1 c2 : node) (rest : list node) (links : list link_entry) :
  find_all (lit "td") row = c0 :: c1 :: c2 :: rest ->
  (forall pre a post url,
      descendants c2 = pre ++ a :: post ->
      is_tag (lit "a") a = true ->
      attr a (lit "href") = Some url ->
      (forall d, In d pre -> is_tag (lit "a") d = true -> attr d (lit "href") = None) ->
      scan_row row links = inr (links ++ [(get_text_strip c0, url)]))
  /\
  ((forall d, In d (descendants c2) ->
              is_tag (lit "a") d = true -> attr d (lit "href") = None) ->
   scan_row row links = inr links).
Proof.
  intros Htds. rewrite scan_row_entry. unfold row_entry, first_hyperlink.
  rewrite Htds. split.
  - intros pre a post url Hdesc Ha Hurl Hpre.
    assert (F : find_with_attr (lit "a") (lit "href") c2 = Some a).
    { unfold find_with_attr. apply hd_filter_Some. split.
      - unfold has_attr. now rewrite Ha, Hurl.
      - exists pre, post. split; [exact Hdesc|].
        intros d Hd. apply href_anchor_false. now apply Hpre. }
    now rewrite F, Hurl.
  - intros Hnone.
    assert (F : find_with_attr (lit "a") (lit "href") c2 = None).
    { unfold find_with_attr. apply hd_filter_None.
      intros d Hd. apply href_anchor_false. now apply Hnone. }
    rewrite F. now rewrite app_nil_r.
Qed.

Lemma scan_row_first_href_anchor_witness :
  find_all (lit "td") anchors_row
  = td [Text (lit "B1")] :: td [] ::
    td [Tag (lit "a") [(lit "name", lit "top")] [Text (lit "x")];
        a_href (lit "u") [Text (lit "pdf")]] :: []
  /\ scan_row anchors_row [] = inr [(lit "B1", lit "u")].
Proof.
  assert (H : find_all (lit "td") anchors_row
              = td [Text (lit "B1")] :: td [] ::
                td [Tag (lit "a") [(lit "name", lit "top")] [Text (lit "x")];
                    a_href (lit "u") [Text (lit "pdf")]] :: []) by reflexivity.
  split; [exact H|].
  refine (proj1 (scan_row_first_href_anchor anchors_row _ _ _ _ [] H)
            [Tag (lit "a") [(lit "name", lit "top")] [Text (lit "x")]; Text (lit "x")]
            (a_href (lit "u") [Text (lit "pdf")])
            [Text (lit "pdf")] (lit "u") eq_refl eq_refl eq_refl _).
  intros d [<- | [<- | []]]; [reflexivity | discriminate].
Defined.

Example only_hrefless_anchors :
  scan_row (tr [td [Text (lit "B1")]; td [];
                td [Tag (lit "a") [(lit "name", lit "top")] []]]) []
  = inr [].
Proof. reflexivity. Qed.

(** ** Page fetch failures *)

Lemma raise_for_status_error (r : response) (e : exn) :
  raise_for_status r = inl e ->
  exn_cls e = HTTPError /\ 400 <= status_code r < 600.
Proof.
  unfold raise_for_status.
  destruct ((400 <=? status_code r) && (status_code r <? 500)) eqn:E1.
  - intros [= <-]. apply andb_true_iff in E1 as [H1 H2].
    apply Nat.leb_le in H1. apply Nat.ltb_lt in H2.
    split; [reflexivity | lia].
  - destruct ((500 <=? status_code r) && (status_code r <? 600)) eqn:E2.
    + intros [= <-]. apply andb_true_iff in E2 as [H1 H2].
      apply Nat.leb_le in H1. apply Nat.ltb_lt in H2.
    split; [reflexivity | lia].
    + discriminate.
Qed.

Lemma raise_for_status_raises (r : response) :
  400 <= status_code r < 600 -> exists e, raise_for_status r = inl e.
Proof.
  intros H. unfold raise_for_status.
  destruct ((400 <=? status_code r) && (status_code r <? 500)) eqn:E1;
    [eexists; reflexivity|].
  destruct ((500 <=? status_code r) && (status_code r <? 600)) eqn:E2;
    [eexists; reflexivity|].
  apply andb_false_iff in E1, E2.
  rewrite Nat.leb_gt, Nat.ltb_ge in E1, E2. lia.
Qed.

Lemma raise_for_status_is_RequestException (r : response) (e : exn) :
  raise_for_status r = inl e -> is_RequestException e = true.
Proof.
  intros H. apply raise_for_status_error in H as [H _].
  unfold is_RequestException. now rewrite H.
Qed.

(** C5. When the page fetch raises a transport error (a
    RequestException from requests.get) or a status error (from
    raise_for_status), get_pdf_links prints the failure and returns the
    empty list; nothing is raised to the caller. *)
Theorem get_pdf_links_fetch_error (w : env) (s : state) (url : str) (e : exn) :
  (requests_get w (st_trace s) url 10 = inl e /\ is_RequestException e = true)
  \/ (exists r, requests_get w (st_trace s) url 10 = inr r
                /\ raise_for_status r = inl e) ->
  get_pdf_links url w s
  = (inr [],
     emit (EvPrint (page_error_prefix ++ str_of_exn e))
          (emit (EvHttpGet url 10) s)).
Proof.
  intros [[Hget Hreq] | (r & Hget & Hstatus)];
    unfold get_pdf_links; unfold_m; rewrite Hget.
  - now rewrite Hreq.
  - rewrite Hstatus. now rewrite (raise_for_status_is_RequestException r e Hstatus).
Qed.

Lemma get_pdf_links_fetch_error_witness :
  ((requests_get http500_world (st_trace initial_state) page_url 10
    = inl (mk_exn HTTPError [])
    /\ is_RequestException (mk_exn HTTPError []) = true)
   \/ (exists r, requests_get http500_world (st_trace initial_state) page_url 10 = inr r
                 /\ raise_for_status r
                    = inl (mk_exn HTTPError
                             (lit "500 Server Error: Internal Server Error for url: "
                              ++ page_url))))
  /\ get_pdf_links page_url http500_world initial_state
     = (inr [],
        emit (EvPrint (page_error_prefix
                       ++ lit "500 Server Error: Internal Server Error for url: "
                       ++ page_url))
             (emit (EvHttpGet page_url 10) initial_state)).
Proof.
  assert (H : exists r,
             requests_get http500_world (st_trace initial_state) page_url 10 = inr r
             /\ raise_for_status r
                = inl (mk_exn HTTPError
                         (lit "500 Server Error: Internal Server Error for url: "
                          ++ page_url))).
  { exists page_500. split; reflexivity. }
  split; [right; exact H|].
  exact (get_pdf_links_fetch_error http500_world initial_state page_url _ (or_intror H)).
Defined.

(** Other exceptions of the fetch are not caught. *)
Lemma get_pdf_links_other_exception (w : env) (s : state) (url : str) (e : exn) :
  requests_get w (st_trace s) url 10 = inl e ->
  is_RequestException e = false ->
  get_pdf_links url w s = (inl e, emit (EvHttpGet url 10) s).
Proof.
  intros Hget Hreq. unfold get_pdf_links; unfold_m. now rewrite Hget, Hreq.
Qed.

(** ** The orchestrator on an empty extraction *)

(** [get_pdf_links] fetches and prints, and does nothing else. *)
Lemma get_pdf_links_effects (w : env) (s : state) (url : str)
    (r : result (list link_entry)) (s1 : state) :
  get_pdf_links url w s = (r, s1) ->
  st_heap s1 = st_heap s /\ st_instance s1 = st_instance s /\
  exists added, st_trace s1 = st_trace s ++ added /\ quiet added.
Proof.
  unfold get_pdf_links; unfold_m.
  destruct (requests_get w (st_trace s) url 10) as [e|resp].
  - destruct (is_RequestException e); intros [= <- <-]; simpl;
      (split; [reflexivity|]; split; [reflexivity|]).
    + exists [EvHttpGet url 10; EvPrint (page_error_prefix ++ str_of_exn e)].
      split; [now rewrite <- app_assoc | reflexivity].
    + exists [EvHttpGet url 10]. split; reflexivity.
  - destruct (raise_for_status resp) as [e|[]] eqn:Hs.
    + rewrite (raise_for_status_is_RequestException resp e Hs).
      intros [= <- <-]; simpl. split; [reflexivity|]; split; [reflexivity|].
      exists [EvHttpGet url 10; EvPrint (page_error_prefix ++ str_of_exn e)].
      split; [now rewrite <- app_assoc | reflexivity].
    + destruct (html_parser w (text resp)) as [e|soup];
        intros [= <- <-]; simpl; (split; [reflexivity|]; split; [reflexivity|]);
        exists [EvHttpGet url 10]; split; reflexivity.
Qed.

(** C7. When extraction gives the empty list, main prints the no-links
    message and returns normally; from start to end it has created no
    folder, started no transfer and written no CSV report. *)
Theorem main_no_links (w : env) (s s1 : state) :
  get_pdf_links page_url w s = (inr [], s1) ->
  main w s
  = (inr tt, emit (EvPrint (lit "No se encontraron enlaces de descarga.")) s1)
  /\ exists added,
       st_trace (snd (main w s)) = st_trace s ++ added /\ quiet added.
Proof.
  intros Hlinks.
  assert (Hmain : main w s
                  = (inr tt, emit (EvPrint (lit "No se encontraron enlaces de descarga.")) s1)).
  { unfold main, bind. rewrite Hlinks. reflexivity. }
  split; [exact Hmain|].
  destruct (get_pdf_links_effects w s page_url _ _ Hlinks)
    as (_ & _ & added & Htrace & Hquiet).
  exists (added ++ [EvPrint (lit "No se encontraron enlaces de descarga.")]).
  rewrite Hmain. simpl. rewrite Htrace. split.
  - now rewrite <- app_assoc.
  - unfold quiet in *. rewrite forallb_app, Hquiet. reflexivity.
Qed.

Lemma main_no_links_witness :
  get_pdf_links page_url http500_world initial_state
  = (inr [],
     emit (EvPrint (page_error_prefix
                    ++ lit "500 Server Error: Internal Server Error for url: "
                    ++ page_url))
          (emit (EvHttpGet page_url 10) initial_state))
  /\ (main http500_world initial_state
      = (inr tt,
         emit (EvPrint (lit "No se encontraron enlaces de descarga."))
           (emit (EvPrint (page_error_prefix
                           ++ lit "500 Server Error: Internal Server Error for url: "
                           ++ page_url))
                 (emit (EvHttpGet page_url 10) initial_state)))
      /\ exists added,
           st_trace (snd (main http500_world initial_state))
           = st_trace initial_state ++ added /\ quiet added).
Proof.
  assert (H : get_pdf_links page_url http500_world initial_state
              = (inr [],
                 emit (EvPrint (page_error_prefix
                                ++ lit "500 Server Error: Internal Server Error for url: "
                                ++ page_url))
                      (emit (EvHttpGet page_url 10) initial_state))) by reflexivity.
  split; [exact H | exact (main_no_links http500_world initial_state _ H)].
Defined.

(** Scenario A, run: the whole trace of the process. *)
Example scenario_A :
  main http500_world initial_state
  = (inr tt,
     {| st_trace :=
          [EvHttpGet page_url 10;
           EvPrint (page_error_prefix
                    ++ lit "500 Server Error: Internal Server Error for url: "
                    ++ page_url);
           EvPrint (lit "No se encontraron enlaces de descarga.")];
        st_heap := [];
        st_instance := None;
        st_files := [] |}).
Proof. reflexivity. Qed.

(** ** The Drive strategy *)

(** The [try] of [download] catches everything the body raises. *)
Lemma GoogleDriveDownloader_download_total (w : env) (s : state) (name link folder : str) :
  exists status s',
    download GoogleDriveDownloader name link folder w s = (inr status, s')
    /\ (status = Exitoso \/ status = Fallido).
Proof.
  unfold download, GoogleDriveDownloader_download; unfold_m.
  destruct (drive_file_id link) as [e|file_id].
  - eexists _, _. split; [reflexivity | now right].
  - cbn [st_trace emit].
    destruct (gdown_download w _ _ _) as [e|u].
    + eexists _, _. split; [reflexivity | now right].
    + eexists _, _. split; [reflexivity | now left].
Qed.

(** C3. download of the Drive strategy never raises. When the identifier
    cannot be derived it prints the error and returns "Fallido"; when the
    transfer raises it prints the error and returns "Fallido"; when the
    transfer returns it returns "Exitoso". *)
Theorem drive_download_outcome (w : env) (s : state) (name link folder : str) :
  (exists status s',
      download GoogleDriveDownloader name link folder w s = (inr status, s')
      /\ (status = Exitoso \/ status = Fallido))
  /\
  match drive_file_id link with
  | inl e =>
      download GoogleDriveDownloader name link folder w s
      = (inr Fallido,
         emit (EvPrint (lit "Error al descargar " ++ name ++ lit ": " ++ str_of_exn e)) s)
  | inr file_id =>
      match gdown_download w
              (st_trace (emit (EvPrint (lit "Inicio de la descarga: " ++ name)) s))
              (drive_download_url file_id)
              (os_path_join folder (name ++ lit ".pdf")) with
      | inl e =>
          download GoogleDriveDownloader name link folder w s
          = (inr Fallido,
             emit (EvPrint (lit "Error al descargar " ++ name ++ lit ": " ++ str_of_exn e))
               (emit (EvGdown (drive_download_url file_id)
                              (os_path_join folder (name ++ lit ".pdf")))
                  (emit (EvPrint (lit "Inicio de la descarga: " ++ name)) s)))
      | inr _ =>
          download GoogleDriveDownloader name link folder w s
          = (inr Exitoso,
             emit (EvPrint (lit "Fin de la descarga: "
                            ++ os_path_join folder (name ++ lit ".pdf")))
               (emit (EvGdown (drive_download_url file_id)
                              (os_path_join folder (name ++ lit ".pdf")))
                  (emit (EvPrint (lit "Inicio de la descarga: " ++ name)) s)))
      end
  end.
Proof.
  split; [apply GoogleDriveDownloader_download_total|].
  unfold download, GoogleDriveDownloader_download; unfold_m.
  destruct (drive_file_id link) as [e|file_id]; [reflexivity|].
  cbn [st_trace emit].
  destruct (gdown_download w _ _ _) as [e|u]; reflexivity.
Qed.

(** ** The registry *)

Lemma first_match_none (items : list (str * strategy_class)) (link : str) :
  (forall source cls, In (source, cls) items -> ~ occurs source link) ->
  first_match items link = None.
Proof.
  induction items as [|[source cls] items IH]; intros H; simpl.
  - reflexivity.
  - rewrite (contains_false source link).
    + apply IH. intros src c Hin. apply (H src c). now right.
    + apply (H source cls). now left.
Qed.

Lemma not_occurs (sub s : str) : contains sub s = false -> ~ occurs sub s.
Proof.
  intros H Hocc. apply contains_iff in Hocc. rewrite Hocc in H. discriminate.
Qed.

(** C4. For a link in which no registered host substring occurs,
    get_strategy returns None without raising, and the loop of
    download_pdfs records "No soportado" for it; it starts no transfer and
    prints nothing, it only sleeps. *)
Theorem unsupported_link (w : env) (s : state) (factory : nat) (obj : factory_obj)
    (name link folder : str) (delay : nat) (logger : DownloadLogger) :
  nth_error (st_heap s) factory = Some obj ->
  (forall source cls, In (source, cls) (_strategies obj) -> ~ occurs source link) ->
  get_strategy factory link w s = (inr None, s)
  /\ download_item factory folder delay (name, link) logger w s
     = (inr {| results := results logger
                 ++ [[(lit "Nombre", name); (lit "Estado", lit "No soportado")]] |},
        emit (EvSleep delay) s).
Proof.
  intros Hobj Hnone.
  assert (Hget : get_strategy factory link w s = (inr None, s)).
  { unfold get_strategy. rewrite Hobj. now rewrite (first_match_none _ _ Hnone). }
  split; [exact Hget|].
  unfold download_item, bind. rewrite Hget. reflexivity.
Qed.

Lemma unsupported_link_witness :
  (nth_error (st_heap built_state) 0 = Some (mk_factory default_strategies)
   /\ forall source cls,
        In (source, cls) (_strategies (mk_factory default_strategies)) ->
        ~ occurs source (lit "https://example.com/file.pdf"))
  /\ (get_strategy 0 (lit "https://example.com/file.pdf") http500_world built_state
      = (inr None, built_state)
      /\ download_item 0 (lit "pdfs") 2 (lit "B1", lit "https://example.com/file.pdf")
           DownloadLogger_init http500_world built_state
         = (inr {| results := results DownloadLogger_init
                     ++ [[(lit "Nombre", lit "B1"); (lit "Estado", lit "No soportado")]] |},
            emit (EvSleep 2) built_state)).
Proof.
  assert (H1 : nth_error (st_heap built_state) 0 = Some (mk_factory default_strategies))
    by reflexivity.
  assert (H2 : forall source cls,
             In (source, cls) (_strategies (mk_factory default_strategies)) ->
             ~ occurs source (lit "https://example.com/file.pdf")).
  { intros source cls [Hin | []]. injection Hin as <- _.
    apply not_occurs. reflexivity. }
  split; [now split|].
  exact (unsupported_link http500_world built_state 0 _ (lit "B1")
           (lit "https://example.com/file.pdf") (lit "pdfs") 2 DownloadLogger_init H1 H2).
Defined.

(** C9. A link in which "drive.google.com" occurs anywhere is given the
    Drive strategy: the test is a substring test on the whole link. *)
Theorem drive_substring_dispatch (w : env) (s : state) (factory : nat) (pre post : str) :
  nth_error (st_heap s) factory = Some (mk_factory default_strategies) ->
  get_strategy factory (pre ++ lit "drive.google.com" ++ post) w s
  = (inr (Some GoogleDriveDownloader), s).
Proof.
  intros Hobj. unfold get_strategy. rewrite Hobj.
  cbn [_strategies default_strategies first_match].
  assert (H : contains (lit "drive.google.com") (pre ++ lit "drive.google.com" ++ post) = true).
  { apply contains_iff. now exists pre, post. }
  now rewrite H.
Qed.

Lemma drive_substring_dispatch_witness :
  nth_error (st_heap built_state) 0 = Some (mk_factory default_strategies)
  /\ get_strategy 0
       (lit "https://example.com/page?from=" ++ lit "drive.google.com" ++ lit "#top")
       http500_world built_state
     = (inr (Some GoogleDriveDownloader), built_state).
Proof.
  assert (H : nth_error (st_heap built_state) 0 = Some (mk_factory default_strategies))
    by reflexivity.
  split; [exact H|].
  exact (drive_substring_dispatch http500_world built_state 0
           (lit "https://example.com/page?from=") (lit "#top") H).
Defined.

Example drive_in_query_string :
  fst (get_strategy 0 (lit "https://example.com/page?from=drive.google.com#top")
         http500_world built_state)
  = inr (Some GoogleDriveDownloader).
Proof. reflexivity. Qed.

(** ** The singleton factory *)

Create HintDb pres discriminated.

Section Preservation.

(** [P] looks only at the factory: the heap and the class attribute. *)
Variable P : state -> Prop.
Hypothesis P_frame :
  forall s s', st_heap s' = st_heap s -> st_instance s' = st_instance s -> P s -> P s'.
Hypothesis P_new : preserves P DownloadStrategyFactory_new.

Lemma pres_ret {A} (a : A) : preserves P (ret a).
Proof. intros w s r s' H [= _ <-]. exact H. Qed.

Lemma pres_lift {A} (x : result A) : preserves P (lift x).
Proof. intros w s r s' H [= _ <-]. exact H. Qed.

Lemma pres_print (line : str) : preserves P (print line).
Proof. intros w s r s' H [= _ <-]. now apply (P_frame s). Qed.

Lemma pres_sleep (n : nat) : preserves P (time_sleep n).
Proof. intros w s r s' H [= _ <-]. now apply (P_frame s). Qed.

Lemma pres_call {A} (ev : event) (answer : env -> trace -> result A) :
  preserves P (call ev answer).
Proof. intros w s r s' H [= _ <-]. now apply (P_frame s). Qed.

Lemma pres_bind {A B} (m : M A) (k : A -> M B) :
  preserves P m -> (forall a, preserves P (k a)) -> preserves P (bind m k).
Proof.
  intros Hm Hk w s r s' H. unfold bind.
  destruct (m w s) as [[e|a] s1] eqn:E.
  - intros [= _ <-]. exact (Hm _ _ _ _ H E).
  - intros Hka. exact (Hk a _ _ _ _ (Hm _ _ _ _ H E) Hka).
Qed.

Lemma pres_try {A} (body : M A) (catches : exn -> bool) (handler : exn -> M A) :
  preserves P body -> (forall e, preserves P (handler e)) ->
  preserves P (try_except body catches handler).
Proof.
  intros Hb Hh w s r s' H. unfold try_except.
  destruct (body w s) as [[e|a] s1] eqn:E.
  - destruct (catches e).
    + intros Hhe. exact (Hh e _ _ _ _ (Hb _ _ _ _ H E) Hhe).
    + intros [= _ <-]. exact (Hb _ _ _ _ H E).
  - intros [= _ <-]. exact (Hb _ _ _ _ H E).
Qed.

Lemma pres_for_each {A S} (l : list A) (body : A -> S -> M S) (acc : S) :
  (forall x a, preserves P (body x a)) -> preserves P (for_each l body acc).
Proof.
  intros Hbody. revert acc; induction l as [|x l IH]; intros acc; simpl.
  - apply pres_ret.
  - apply pres_bind; [apply Hbody | exact IH].
Qed.

Lemma pres_get_strategy (self : nat) (link : str) :
  preserves P (get_strategy self link).
Proof.
  intros w s r s' H. unfold get_strategy.
  destruct (nth_error (st_heap s) self); intros [= _ <-]; exact H.
Qed.

Lemma pres_to_csv (df : dataframe) (path : str) (index : bool) :
  preserves P (DataFrame_to_csv df path index).
Proof.
  intros w s r s' H. unfold DataFrame_to_csv.
  destruct (to_csv w (st_trace s) path df index);
    intros [= _ <-]; now apply (P_frame s).
Qed.

Hint Resolve pres_ret pres_lift pres_print pres_sleep pres_call
  pres_get_strategy pres_to_csv : pres.

Ltac pres_step :=
  first [ apply pres_bind; [|intros ?]
        | apply pres_try; [|intros ?]
        | apply pres_for_each; intros ? ?
        | solve [auto with pres] ].

Lemma pres_download (st : strategy) (name link folder : str) :
  preserves P (download st name link folder).
Proof.
  destruct st. unfold download, GoogleDriveDownloader_download.
  repeat pres_step.
Qed.

Lemma pres_get_pdf_links (url : str) : preserves P (get_pdf_links url).
Proof.
  intros w s r s' H E.
  destruct (get_pdf_links_effects w s url r s' E) as (Hh & Hi & _).
  exact (P_frame s s' Hh Hi H).
Qed.

Lemma pres_save_to_csv (l : DownloadLogger) (folder : str) :
  preserves P (save_to_csv l folder).
Proof. unfold save_to_csv. repeat pres_step. Qed.

Lemma pres_download_item (factory : nat) (folder : str) (delay : nat)
    (item : link_entry) (logger : DownloadLogger) :
  preserves P (download_item factory folder delay item logger).
Proof.
  destruct item as [name link]. unfold download_item.
  pres_step; [pres_step|]. pres_step.
  - destruct a; [apply pres_download | pres_step].
  - repeat pres_step.
Qed.

Lemma pres_download_pdfs (links : list link_entry) (folder : str) (delay : nat) :
  preserves P (download_pdfs links folder delay).
Proof.
  unfold download_pdfs.
  pres_step; [pres_step|]. pres_step; [exact P_new|].
  pres_step; [|apply pres_save_to_csv].
  apply pres_for_each. intros x acc. apply pres_download_item.
Qed.

Lemma pres_main : preserves P main.
Proof.
  unfold main. apply pres_bind; [apply pres_get_pdf_links|].
  intros [|l links]; [pres_step|].
  apply pres_bind; [apply pres_download_pdfs | intros ?; pres_step].
Qed.

End Preservation.

Lemma factory_ok_frame (s s' : state) :
  st_heap s' = st_heap s -> st_instance s' = st_instance s ->
  factory_ok s -> factory_ok s'.
Proof. unfold factory_ok. intros -> ->. auto. Qed.

(** A construction returns address 0, leaves one factory object with the
    registered mapping, and changes nothing else. *)
Lemma factory_new_ok (w : env) (s : state) (r : result nat) (s' : state) :
  factory_ok s ->
  DownloadStrategyFactory_new w s = (r, s') ->
  r = inr 0 /\ st_instance s' = Some 0
  /\ st_heap s' = [mk_factory default_strategies]
  /\ st_trace s' = st_trace s.
Proof.
  unfold DownloadStrategyFactory_new.
  intros [[Hi Hh] | [Hi Hh]]; rewrite Hi.
  - rewrite Hh. intros [= <- <-]. simpl. auto.
  - intros [= <- <-]. auto.
Qed.

Lemma factory_ok_new : preserves factory_ok DownloadStrategyFactory_new.
Proof.
  intros w s r s' H E.
  destruct (factory_new_ok w s r s' H E) as (_ & Hi & Hh & _).
  right. now split.
Qed.

Lemma step_factory_ok (w : env) (s s' : state) :
  factory_ok s -> step w s s' -> factory_ok s'.
Proof.
  intros H Hstep. destruct Hstep as
    [s r s' E | self link s r s' _ E | st name link folder s r s' E
    | url s r s' E | links folder delay s r s' E | l folder s r s' E | s r s' E].
  - exact (factory_ok_new w s r s' H E).
  - exact (pres_get_strategy factory_ok self link w s r s' H E).
  - exact (pres_download factory_ok factory_ok_frame st name link folder w s r s' H E).
  - exact (pres_get_pdf_links factory_ok factory_ok_frame url w s r s' H E).
  - exact (pres_download_pdfs factory_ok factory_ok_frame factory_ok_new
             links folder delay w s r s' H E).
  - exact (pres_save_to_csv factory_ok factory_ok_frame l folder w s r s' H E).
  - exact (pres_main factory_ok factory_ok_frame factory_ok_new w s r s' H E).
Qed.

Lemma reachable_factory_ok (w : env) (s : state) :
  reachable w s -> factory_ok s.
Proof.
  induction 1 as [|s s' _ IH Hstep].
  - left. now split.
  - exact (step_factory_ok w s s' IH Hstep).
Qed.

(** C8. In every state the process can reach: the factory has been built
    at most once and its mapping is the registered one; a construction
    returns the one instance (address 0) and leaves exactly one factory
    object with that mapping; a lookup on the instance changes nothing and
    its answer depends on the link alone. *)
Theorem factory_singleton (w : env) (s : state) :
  reachable w s ->
  factory_ok s
  /\ (forall r s', DownloadStrategyFactory_new w s = (r, s') ->
        r = inr 0 /\ st_instance s' = Some 0
        /\ st_heap s' = [mk_factory default_strategies]
        /\ st_trace s' = st_trace s)
  /\ (forall self link r s',
        st_instance s = Some self ->
        get_strategy self link w s = (r, s') ->
        r = inr (first_match default_strategies link) /\ s' = s).
Proof.
  intros Hreach. pose proof (reachable_factory_ok w s Hreach) as Hok.
  split; [exact Hok|]. split.
  - intros r s'. now apply factory_new_ok.
  - intros self link r s' Hself. unfold get_strategy.
    destruct Hok as [[Hi _] | [Hi Hh]]; rewrite Hi in Hself; [discriminate|].
    injection Hself as <-. rewrite Hh. simpl. now intros [= <- <-].
Qed.

Lemma factory_singleton_witness :
  reachable one_row_world (snd (main one_row_world initial_state))
  /\ (factory_ok (snd (main one_row_world initial_state))
      /\ (forall r s',
            DownloadStrategyFactory_new one_row_world
              (snd (main one_row_world initial_state)) = (r, s') ->
            r = inr 0 /\ st_instance s' = Some 0
            /\ st_heap s' = [mk_factory default_strategies]
            /\ st_trace s' = st_trace (snd (main one_row_world initial_state)))
      /\ (forall self link r s',
            st_instance (snd (main one_row_world initial_state)) = Some self ->
            get_strategy self link one_row_world
              (snd (main one_row_world initial_state)) = (r, s') ->
            r = inr (first_match default_strategies link)
            /\ s' = snd (main one_row_world initial_state))).
Proof.
  assert (H : reachable one_row_world (snd (main one_row_world initial_state))).
  { apply (reach_step one_row_world initial_state); [apply reach_init|].
    apply (step_main one_row_world initial_state
             (fst (main one_row_world initial_state))).
    now destruct (main one_row_world initial_state). }
  split; [exact H | exact (factory_singleton one_row_world _ H)].
Defined.

(** Two constructions in a row give the same address and one object. *)
Example construct_twice :
  (a <- DownloadStrategyFactory_new ;;
   b <- DownloadStrategyFactory_new ;;
   ret (a, b)) http500_world initial_state
  = (inr (0, 0),
     {| st_trace := []; st_heap := [mk_factory default_strategies];
        st_instance := Some 0; st_files := [] |}).
Proof. reflexivity. Qed.

(** ** The result logger *)

Lemma log_of_results_from (calls : list (str * str)) (l : DownloadLogger) :
  results (fold_left (fun l c => update l (fst c) (snd c)) calls l)
  = results l
    ++ map (fun c => [(lit "Nombre", fst c); (lit "Estado", snd c)]) calls.
Proof.
  revert l; induction calls as [|c calls IH]; intros l; simpl.
  - now rewrite app_nil_r.
  - rewrite IH. simpl. now rewrite <- app_assoc.
Qed.

(** The logger holds one record per update, in call order. *)
Lemma log_of_results (calls : list (str * str)) :
  results (log_of calls)
  = map (fun c => [(lit "Nombre", fst c); (lit "Estado", snd c)]) calls.
Proof. unfold log_of. now rewrite log_of_results_from. Qed.

Lemma add_keys_two_columns (name status : str) :
  add_keys two_columns (map fst [(lit "Nombre", name); (lit "Estado", status)])
  = two_columns.
Proof. reflexivity. Qed.

Lemma columns_from_two (calls : list (str * str)) :
  fold_left (fun seen r => add_keys seen (map fst r))
    (map (fun c => [(lit "Nombre", fst c); (lit "Estado", snd c)]) calls)
    two_columns
  = two_columns.
Proof.
  induction calls as [|c calls IH]; simpl map; cbn [fold_left].
  - reflexivity.
  - rewrite add_keys_two_columns. exact IH.
Qed.

Lemma DataFrame_columns_log (calls : list (str * str)) :
  DataFrame_columns
    (map (fun c => [(lit "Nombre", fst c); (lit "Estado", snd c)]) calls)
  = match calls with [] => [] | _ :: _ => two_columns end.
Proof.
  destruct calls as [|c calls]; [reflexivity|].
  unfold DataFrame_columns. simpl map. cbn [fold_left].
  change (add_keys [] (map fst [(lit "Nombre", fst c); (lit "Estado", snd c)]))
    with two_columns.
  apply columns_from_two.
Qed.

Lemma DataFrame_log (calls : list (str * str)) :
  DataFrame (results (log_of calls))
  = {| columns := match calls with [] => [] | _ :: _ => two_columns end;
       data := match calls with
               | [] => []
               | _ :: _ => map (fun c => [Some (fst c); Some (snd c)]) calls
               end |}.
Proof.
  unfold DataFrame. rewrite log_of_results, DataFrame_columns_log.
  destruct calls as [|c calls]; [reflexivity|].
  f_equal. rewrite map_map. apply map_ext. intros x. reflexivity.
Qed.

Lemma str_eqb_refl (a : str) : str_eqb a a = true.
Proof. unfold str_eqb. destruct (str_eq_dec a a); [reflexivity | contradiction]. Qed.

Lemma file_at_written (path : str) (content : option csv_file) (s : state) :
  file_at path (write_file path content s) = Some content.
Proof. unfold file_at. simpl. now rewrite str_eqb_refl. Qed.

Lemma csv_of_log (calls : list (str * str)) :
  csv_of (log_table calls) false
  = {| csv_header := match calls with [] => [] | _ :: _ => two_columns end;
       csv_rows := map (fun c => [fst c; snd c]) calls |}.
Proof.
  unfold csv_of, log_table. simpl. f_equal. rewrite map_map.
  apply map_ext. intros c. reflexivity.
Qed.

Lemma DataFrame_log_table (calls : list (str * str)) :
  DataFrame (results (log_of calls)) = log_table calls.
Proof.
  rewrite DataFrame_log. unfold log_table. now destruct calls.
Qed.

(** When [to_csv] raises, [save_to_csv] raises with it and prints
    nothing; what is at the path is not known. *)
Lemma save_to_csv_failure (calls : list (str * str)) (folder : str)
    (w : env) (s : state) (e : exn) :
  to_csv w (st_trace s) (report_path folder) (log_table calls) false = inl e ->
  save_to_csv (log_of calls) folder w s
  = (inl e,
     write_file (report_path folder) None
       (emit (EvToCsv (report_path folder) (log_table calls) false) s)).
Proof.
  intros H. unfold save_to_csv, bind, DataFrame_to_csv.
  rewrite DataFrame_log_table. fold (report_path folder). now rewrite H.
Qed.

(** C6, as the code has it. After N updates, when to_csv returns,
    save_to_csv has written the file <folder>/descargas_resultados.csv,
    without index column, with N data lines, one per update in call order,
    each holding the name and the status; for N >= 1 its header is Nombre,
    Estado, for N = 0 the header is empty. *)
Theorem save_to_csv_table (calls : list (str * str)) (folder : str)
    (w : env) (s : state) :
  to_csv w (st_trace s) (report_path folder) (log_table calls) false = inr tt ->
  fst (save_to_csv (log_of calls) folder w s) = inr tt
  /\ file_at (report_path folder) (snd (save_to_csv (log_of calls) folder w s))
     = Some (Some {| csv_header := match calls with [] => [] | _ :: _ => two_columns end;
                     csv_rows := map (fun c => [fst c; snd c]) calls |})
  /\ st_trace (snd (save_to_csv (log_of calls) folder w s))
     = st_trace s
       ++ [EvToCsv (report_path folder) (log_table calls) false;
           EvPrint (lit "Resultados guardados en " ++ report_path folder)].
Proof.
  intros H. unfold save_to_csv, bind, DataFrame_to_csv, print.
  rewrite DataFrame_log_table. fold (report_path folder). rewrite H.
  cbn [fst snd]. split; [reflexivity|]. split.
  - unfold file_at. cbn [st_files emit write_file lookup_file].
    now rewrite str_eqb_refl, csv_of_log.
  - cbn [st_trace emit write_file]. now rewrite <- app_assoc.
Qed.

Lemma save_to_csv_table_witness :
  to_csv http500_world (st_trace initial_state) (report_path (lit "pdfs"))
    (log_table [(lit "B1", Fallido); (lit "B2", Exitoso)]) false = inr tt
  /\ (fst (save_to_csv (log_of [(lit "B1", Fallido); (lit "B2", Exitoso)])
             (lit "pdfs") http500_world initial_state) = inr tt
      /\ file_at (report_path (lit "pdfs"))
           (snd (save_to_csv (log_of [(lit "B1", Fallido); (lit "B2", Exitoso)])
                   (lit "pdfs") http500_world initial_state))
         = Some (Some {| csv_header := two_columns;
                         csv_rows := map (fun c => [fst c; snd c])
                                       [(lit "B1", Fallido); (lit "B2", Exitoso)] |})
      /\ st_trace (snd (save_to_csv (log_of [(lit "B1", Fallido); (lit "B2", Exitoso)])
                          (lit "pdfs") http500_world initial_state))
         = st_trace initial_state
           ++ [EvToCsv (report_path (lit "pdfs"))
                 (log_table [(lit "B1", Fallido); (lit "B2", Exitoso)]) false;
               EvPrint (lit "Resultados guardados en " ++ report_path (lit "pdfs"))]).
Proof.
  assert (H : to_csv http500_world (st_trace initial_state) (report_path (lit "pdfs"))
                (log_table [(lit "B1", Fallido); (lit "B2", Exitoso)]) false = inr tt)
    by reflexivity.
  split; [exact H|].
  exact (save_to_csv_table [(lit "B1", Fallido); (lit "B2", Exitoso)] (lit "pdfs")
           http500_world initial_state H).
Defined.

(** The claim C6 as worded fails at N = 0: to_csv returns, and the file
    written has no columns. *)
Lemma save_to_csv_empty_counterexample :
  to_csv http500_world (st_trace initial_state) (report_path (lit "pdfs"))
    (log_table []) false = inr tt
  /\ file_at (lit "pdfs/descargas_resultados.csv")
       (snd (save_to_csv (log_of []) (lit "pdfs") http500_world initial_state))
     <> Some (Some {| csv_header := [lit "Nombre"; lit "Estado"]; csv_rows := [] |}).
Proof. split; [reflexivity | discriminate]. Qed.

Example save_to_csv_empty :
  file_at (lit "pdfs/descargas_resultados.csv")
    (snd (save_to_csv (log_of []) (lit "pdfs") http500_world initial_state))
  = Some (Some {| csv_header := []; csv_rows := [] |})
  /\ st_trace (snd (save_to_csv (log_of []) (lit "pdfs") http500_world initial_state))
     = [EvToCsv (lit "pdfs/descargas_resultados.csv")
          {| columns := []; data := [] |} false;
        EvPrint (lit "Resultados guardados en pdfs/descargas_resultados.csv")].
Proof. split; reflexivity. Qed.

Example save_to_csv_two :
  st_trace (snd (save_to_csv
                   (log_of [(lit "B1", Fallido); (lit "B2", Exitoso)])
                   (lit "pdfs") http500_world initial_state))
  = [EvToCsv (lit "pdfs/descargas_resultados.csv")
       {| columns := [lit "Nombre"; lit "Estado"];
          data := [[Some (lit "B1"); Some (lit "Fallido")];
                   [Some (lit "B2"); Some (lit "Exitoso")]] |} false;
     EvPrint (lit "Resultados guardados en pdfs/descargas_resultados.csv")].
Proof. reflexivity. Qed.

(** ** The loop of [download_pdfs] *)

Section Loop.

Variables (w : env) (factory : nat) (obj : factory_obj) (folder : str) (delay : nat).

Lemma has_factory_frame (s s' : state) :
  st_heap s' = st_heap s -> st_instance s' = st_instance s ->
  has_factory factory obj s -> has_factory factory obj s'.
Proof. unfold has_factory. now intros -> _. Qed.

(** One item never raises and adds one record. *)
Lemma download_item_total (item : link_entry) (logger : DownloadLogger) (s : state) :
  has_factory factory obj s ->
  exists status s',
    download_item factory folder delay item logger w s
    = (inr (update logger (fst item) status), s')
    /\ has_factory factory obj s'.
Proof.
  intros Hf. destruct item as [name link].
  unfold download_item, bind, get_strategy. rewrite Hf.
  destruct (first_match (_strategies obj) link) as [st|].
  - destruct st.
    destruct (GoogleDriveDownloader_download_total w s name link folder)
      as (status & s1 & Hd & _).
    rewrite Hd. exists status, (emit (EvSleep delay) s1). split; [reflexivity|].
    apply (has_factory_frame s1); try reflexivity.
    exact (pres_download (has_factory factory obj) has_factory_frame
             GoogleDriveDownloader name link folder w s _ s1 Hf Hd).
  - exists No_soportado, (emit (EvSleep delay) s). split; [reflexivity|].
    exact Hf.
Qed.

(** A failed item does not stop the loop: every link gets its record. *)
Lemma download_loop_total (links : list link_entry) (logger : DownloadLogger) (s : state) :
  has_factory factory obj s ->
  exists logger' s',
    for_each links (download_item factory folder delay) logger w s
    = (inr logger', s')
    /\ map (fun r => dict_get r (lit "Nombre")) (results logger')
       = map (fun r => dict_get r (lit "Nombre")) (results logger)
         ++ map (fun item => Some (fst item)) links.
Proof.
  revert logger s; induction links as [|item links IH]; intros logger s Hf.
  - exists logger, s. split; [reflexivity|]. simpl. now rewrite app_nil_r.
  - destruct (download_item_total item logger s Hf) as (status & s1 & Hitem & Hf1).
    destruct (IH (update logger (fst item) status) s1 Hf1)
      as (logger' & s' & Hloop & Hnames).
    exists logger', s'. split.
    + simpl. unfold bind. rewrite Hitem. exact Hloop.
    + rewrite Hnames. simpl. rewrite map_app. simpl.
      now rewrite <- app_assoc.
Qed.

End Loop.

(** ** The scenarios of the specification *)

(** Scenario B: one row with a Drive link; the transfer succeeds. *)
Example scenario_B :
  main (rows_world [bulletin_row (lit "Bulletin 1") abc_link]) initial_state
  = (inr tt,
     {| st_trace :=
          [EvHttpGet page_url 10;
           EvMakedirs (lit "pdfs");
           EvPrint (lit "Inicio de la descarga: Bulletin 1");
           EvGdown (lit "https://drive.google.com/uc?id=ABC123")
                   (lit "pdfs/Bulletin 1.pdf");
           EvPrint (lit "Fin de la descarga: pdfs/Bulletin 1.pdf");
           EvSleep 2;
           EvToCsv (lit "pdfs/descargas_resultados.csv")
             {| columns := [lit "Nombre"; lit "Estado"];
                data := [[Some (lit "Bulletin 1"); Some (lit "Exitoso")]] |} false;
           EvPrint (lit "Resultados guardados en pdfs/descargas_resultados.csv");
           EvPrint (lit "Descarga completada.")];
        st_heap := [mk_factory default_strategies];
        st_instance := Some 0;
        st_files :=
          [(lit "pdfs/descargas_resultados.csv",
            Some {| csv_header := [lit "Nombre"; lit "Estado"];
                    csv_rows := [[lit "Bulletin 1"; lit "Exitoso"]] |})] |}).
Proof. reflexivity. Qed.

(** Scenario C: one row with a link to another host. *)
Example scenario_C :
  st_trace (snd (main (rows_world [bulletin_row (lit "B1") (lit "https://example.com/file.pdf")])
                   initial_state))
  = [EvHttpGet page_url 10;
     EvMakedirs (lit "pdfs");
     EvSleep 2;
     EvToCsv (lit "pdfs/descargas_resultados.csv")
       {| columns := [lit "Nombre"; lit "Estado"];
          data := [[Some (lit "B1"); Some (lit "No soportado")]] |} false;
     EvPrint (lit "Resultados guardados en pdfs/descargas_resultados.csv");
     EvPrint (lit "Descarga completada.")].
Proof. reflexivity. Qed.

(** Scenario D: the first transfer fails, the second succeeds. *)
Example scenario_D :
  st_trace (snd (main (rows_world
                         [bulletin_row (lit "B1") (lit "https://drive.google.com/file/d/BAD/view");
                          bulletin_row (lit "B2") (lit "https://drive.google.com/file/d/GOOD/view")])
                   initial_state))
  = [EvHttpGet page_url 10;
     EvMakedirs (lit "pdfs");
     EvPrint (lit "Inicio de la descarga: B1");
     EvGdown (lit "https://drive.google.com/uc?id=BAD") (lit "pdfs/B1.pdf");
     EvPrint (lit "Error al descargar B1: disk full");
     EvSleep 2;
     EvPrint (lit "Inicio de la descarga: B2");
     EvGdown (lit "https://drive.google.com/uc?id=GOOD") (lit "pdfs/B2.pdf");
     EvPrint (lit "Fin de la descarga: pdfs/B2.pdf");
     EvSleep 2;
     EvToCsv (lit "pdfs/descargas_resultados.csv")
       {| columns := [lit "Nombre"; lit "Estado"];
          data := [[Some (lit "B1"); Some (lit "Fallido")];
                   [Some (lit "B2"); Some (lit "Exitoso")]] |} false;
     EvPrint (lit "Resultados guardados en pdfs/descargas_resultados.csv");
     EvPrint (lit "Descarga completada.")].
Proof. reflexivity. Qed.

(** * Further properties *)

(** ** [split] and the identifier *)

Lemma split_scan_nonempty (sep cur s : str) :
  sep <> [] -> split_scan sep 0 cur s <> [].
Proof.
  intros Hsep. rewrite (split_scan_find sep cur s Hsep).
  destruct (find sep s); discriminate.
Qed.

Lemma skipn_shorter (sep s : str) (i : nat) :
  sep <> [] -> find sep s = Some i ->
  length (skipn (i + length sep) s) < length s.
Proof.
  intros Hsep F. destruct (find_Some _ _ _ F) as (post & Hs & _ & Hk & _).
  rewrite Hk. apply (f_equal (@length char)) in Hs.
  rewrite !length_app in Hs.
  destruct sep; [contradiction|]. simpl in Hs. lia.
Qed.

(** Putting the pieces back together with the separator gives the string,
    and no piece holds the separator. *)
Lemma split_scan_join (sep : str) (n : nat) (s : str) :
  sep <> [] -> length s < n ->
  join sep (split_scan sep 0 [] s) = s
  /\ Forall (fun piece => ~ occurs sep piece) (split_scan sep 0 [] s).
Proof.
  intros Hsep. revert s; induction n as [|n IH]; intros s Hn; [lia|].
  rewrite (split_scan_find sep [] s Hsep). simpl app.
  destruct (find sep s) as [i|] eqn:F.
  - destruct (find_Some _ _ _ F) as (post & Hs & Hl & Hk & Hmin).
    pose proof (skipn_shorter sep s i Hsep F) as Hshort.
    destruct (IH (skipn (i + length sep) s)) as [Hjoin Hall]; [lia|].
    split.
    + simpl. destruct (split_scan sep 0 [] (skipn (i + length sep) s)) eqn:E.
      * now apply split_scan_nonempty in E.
      * rewrite Hjoin, Hk. now rewrite <- Hs.
    + constructor; [|exact Hall].
      intros (a & b & Hab).
      assert (Hle : i <= length a).
      { apply (Hmin a (b ++ sep ++ post)). etransitivity; [exact Hs|].
        rewrite Hab. now rewrite <- !app_assoc. }
      assert (Hlen : length (firstn i s) = length a + length sep + length b)
        by (rewrite Hab, !length_app; lia).
      destruct sep; [contradiction|]. simpl in Hlen. lia.
  - split; [reflexivity|]. constructor; [|constructor].
    intros (a & b & Hab). now apply (find_None _ _ F) in Hab.
Qed.

(** X1. [sep.join(s.split(sep))] is [s], and no piece of a split holds the
    separator. *)
Theorem split_join_roundtrip (sep s : str) (pieces : list str) :
  split sep s = inr pieces ->
  join sep pieces = s /\ Forall (fun piece => ~ occurs sep piece) pieces.
Proof.
  unfold split. destruct sep as [|c sep]; [discriminate|].
  intros [= <-]. apply (split_scan_join (c :: sep) (S (length s)) s); [discriminate | lia].
Qed.

Lemma split_join_roundtrip_witness :
  split (lit "/d/") abc_link
  = inr [lit "https://drive.google.com/file"; lit "ABC123/view"]
  /\ (join (lit "/d/") [lit "https://drive.google.com/file"; lit "ABC123/view"]
      = abc_link
      /\ Forall (fun piece => ~ occurs (lit "/d/") piece)
           [lit "https://drive.google.com/file"; lit "ABC123/view"]).
Proof.
  assert (H : split (lit "/d/") abc_link
              = inr [lit "https://drive.google.com/file"; lit "ABC123/view"])
    by reflexivity.
  split; [exact H | exact (split_join_roundtrip (lit "/d/") abc_link _ H)].
Defined.

(** Without "/d/" the split has one piece and index 1 is out of range. *)
Lemma drive_file_id_no_pattern (link : str) :
  ~ occurs (lit "/d/") link ->
  drive_file_id link = inl (mk_exn IndexError (lit "list index out of range")).
Proof.
  intros Hno. rewrite drive_file_id_pieces.
  rewrite (split_scan_find (lit "/d/") [] link lit_slash_d_nonempty).
  destruct (find (lit "/d/") link) as [i|] eqn:F; [|reflexivity].
  exfalso. apply Hno. destruct (find_Some _ _ _ F) as (post & Hs & _).
  now exists (firstn i link), post.
Qed.

(** With "/d/" the identifier is there, and it is the text between the
    first "/d/" and the next "/". *)
Lemma drive_file_id_identifier (link : str) :
  occurs (lit "/d/") link ->
  exists ident, drive_file_id link = inr ident /\ identifier_of link ident.
Proof.
  intros Hocc. rewrite drive_file_id_pieces.
  destruct (split_scan_head (lit "/d/") link lit_slash_d_nonempty)
    as (pre & more0 & rest0 & Hsplit0 & Hlink & Hrest0 & Hnil0 & Hmin0).
  destruct Hrest0 as [-> | (r & -> & ->)].
  { destruct (Hnil0 eq_refl) as [_ Hno]. contradiction. }
  destruct (split_scan_head (lit "/d/") r lit_slash_d_nonempty)
    as (tail & more1 & rest1 & Hsplit1 & Hr & Hrest1 & _ & _).
  destruct (split_scan_head (lit "/") tail lit_slash_nonempty)
    as (ident & more2 & rest2 & Hsplit2 & Htail & Hrest2 & _ & Hmin2).
  exists ident. split.
  { rewrite Hsplit0, Hsplit1. simpl. now rewrite Hsplit2. }
  exists pre, (rest2 ++ rest1). split; [|split; [|split]].
  - rewrite Hlink, Hr, Htail. now rewrite <- !app_assoc.
  - exact Hmin0.
  - intros (a & b & Hab).
    assert (Hle : length ident <= length a).
    { apply (Hmin2 a (b ++ rest2)). rewrite Htail, Hab. now rewrite <- !app_assoc. }
    rewrite Hab, !length_app in Hle. simpl in Hle. lia.
  - destruct Hrest2 as [-> | (r2 & -> & _)].
    + destruct Hrest1 as [-> | (r1 & -> & _)].
      * now left.
      * right. now exists (lit "d/" ++ r1).
    + right. exists (r2 ++ rest1). now rewrite <- app_assoc.
Qed.

Lemma drive_file_id_pattern (link : str) :
  occurs (lit "/d/") link -> exists file_id, drive_file_id link = inr file_id.
Proof.
  intros Hocc. destruct (drive_file_id_identifier link Hocc) as (ident & H & _).
  now exists ident.
Qed.

Lemma occurs_dec (sub s : str) : occurs sub s \/ ~ occurs sub s.
Proof.
  destruct (contains sub s) eqn:E.
  - left. now apply contains_iff.
  - right. now apply not_occurs.
Qed.

(** X2. An identifier is derived exactly for the links in which "/d/"
    occurs; for every other link the step raises IndexError. *)
Theorem drive_file_id_defined_iff (link : str) :
  ((exists file_id, drive_file_id link = inr file_id) <-> occurs (lit "/d/") link)
  /\ (~ occurs (lit "/d/") link <->
      drive_file_id link = inl (mk_exn IndexError (lit "list index out of range"))).
Proof.
  assert (Hdec : occurs (lit "/d/") link \/ ~ occurs (lit "/d/") link).
  { destruct (contains (lit "/d/") link) eqn:E.
    - left. now apply contains_iff.
    - right. now apply not_occurs. }
  split; split.
  - intros [file_id H]. destruct Hdec as [Hocc | Hno]; [exact Hocc|].
    rewrite (drive_file_id_no_pattern link Hno) in H. discriminate.
  - apply drive_file_id_pattern.
  - apply drive_file_id_no_pattern.
  - intros H Hocc. destruct (drive_file_id_pattern link Hocc) as [file_id Hid].
    rewrite Hid in H. discriminate.
Qed.

(** X3. For a link without "/d/", download starts no transfer: it prints
    the IndexError and returns "Fallido". *)
Theorem download_without_pattern (w : env) (s : state) (name link folder : str) :
  ~ occurs (lit "/d/") link ->
  download GoogleDriveDownloader name link folder w s
  = (inr Fallido,
     emit (EvPrint (lit "Error al descargar " ++ name
                    ++ lit ": list index out of range")) s).
Proof.
  intros Hno. unfold download, GoogleDriveDownloader_download; unfold_m.
  now rewrite (drive_file_id_no_pattern link Hno).
Qed.

Lemma download_without_pattern_witness :
  ~ occurs (lit "/d/") (lit "https://drive.google.com/open?id=GOOD")
  /\ download GoogleDriveDownloader (lit "B3")
       (lit "https://drive.google.com/open?id=GOOD") (lit "pdfs")
       http500_world initial_state
     = (inr Fallido,
        emit (EvPrint (lit "Error al descargar " ++ lit "B3"
                       ++ lit ": list index out of range")) initial_state).
Proof.
  assert (H : ~ occurs (lit "/d/") (lit "https://drive.google.com/open?id=GOOD")).
  { apply not_occurs. reflexivity. }
  split; [exact H|].
  exact (download_without_pattern http500_world initial_state (lit "B3")
           (lit "https://drive.google.com/open?id=GOOD") (lit "pdfs") H).
Defined.

(** ** The run of [download_pdfs] *)

Lemma loop_event_incl (l l' : list link_entry) (folder : str) (delay : nat) (ev : event) :
  incl l l' -> loop_event l folder delay ev -> loop_event l' folder delay ev.
Proof.
  intros Hincl. destruct ev; simpl; auto.
  intros (name & link & file_id & Hin & H). exists name, link, file_id.
  split; [now apply Hincl | exact H].
Qed.

Section Run.

Variables (w : env) (factory : nat) (folder : str) (delay : nat).

(** One turn of the loop: the record it adds and the events it leaves. *)
Lemma download_item_run (item : link_entry) (logger : DownloadLogger) (s : state) :
  built factory s ->
  exists status evs s',
    download_item factory folder delay item logger w s
    = (inr (update logger (fst item) status), s')
    /\ st_trace s' = st_trace s ++ evs ++ [EvSleep delay]
    /\ built factory s'
    /\ st_files s' = st_files s
    /\ known_status status
    /\ Forall (loop_event [item] folder delay) evs
    /\ filter is_sleep evs = []
    /\ (drive_link item ->
        exists ev, filter is_gdown evs = [ev] /\ transfer_of folder item ev)
    /\ (~ drive_link item -> filter is_gdown evs = []).
Proof.
  intros Hf. destruct item as [name link].
  unfold download_item, bind, get_strategy. unfold built, has_factory in Hf.
  rewrite Hf. cbn [_strategies default_strategies first_match instantiate].
  unfold drive_link. cbn [fst snd].
  destruct (contains (lit "drive.google.com") link) eqn:Hhost.
  - assert (Hocc : occurs (lit "drive.google.com") link) by now apply contains_iff.
    unfold download, GoogleDriveDownloader_download; unfold_m.
    destruct (occurs_dec (lit "/d/") link) as [Hd | Hd].
    + destruct (drive_file_id_identifier link Hd) as (file_id & Hid & Hident).
      rewrite Hid. cbn [st_trace emit].
      assert (Htransfer :
        transfer_of folder (name, link)
          (EvGdown (drive_download_url file_id)
             (os_path_join folder (name ++ lit ".pdf")))).
      { exists file_id. split; [exact Hident | reflexivity]. }
      assert (Hloop :
        loop_event [(name, link)] folder delay
          (EvGdown (drive_download_url file_id)
             (os_path_join folder (name ++ lit ".pdf")))).
      { exists name, link, file_id. split; [now left|]. now repeat split. }
      destruct (gdown_download w _ _ _) as [e|u].
      * exists Fallido,
          [EvPrint (lit "Inicio de la descarga: " ++ name);
           EvGdown (drive_download_url file_id) (os_path_join folder (name ++ lit ".pdf"));
           EvPrint (lit "Error al descargar " ++ name ++ lit ": " ++ str_of_exn e)].
        eexists. split; [reflexivity|]. cbn [st_trace emit st_heap st_files].
        split; [now rewrite <- !app_assoc|]. split; [exact Hf|].
        split; [reflexivity|]. split; [right; now left|].
        split; [repeat constructor; exact Hloop|]. split; [reflexivity|].
        split; [intros _; eexists; split; [reflexivity | exact Htransfer]|].
        intros Hno. exfalso. apply Hno. now split.
      * exists Exitoso,
          [EvPrint (lit "Inicio de la descarga: " ++ name);
           EvGdown (drive_download_url file_id) (os_path_join folder (name ++ lit ".pdf"));
           EvPrint (lit "Fin de la descarga: " ++ os_path_join folder (name ++ lit ".pdf"))].
        eexists. split; [reflexivity|]. cbn [st_trace emit st_heap st_files].
        split; [now rewrite <- !app_assoc|]. split; [exact Hf|].
        split; [reflexivity|]. split; [now left|].
        split; [repeat constructor; exact Hloop|]. split; [reflexivity|].
        split; [intros _; eexists; split; [reflexivity | exact Htransfer]|].
        intros Hno. exfalso. apply Hno. now split.
    + rewrite (drive_file_id_no_pattern link Hd).
      exists Fallido,
        [EvPrint (lit "Error al descargar " ++ name ++ lit ": "
                  ++ str_of_exn (mk_exn IndexError (lit "list index out of range")))].
      eexists. split; [reflexivity|]. cbn [st_trace emit st_heap st_files].
      split; [now rewrite <- !app_assoc|]. split; [exact Hf|].
      split; [reflexivity|]. split; [right; now left|].
      split; [repeat constructor|]. split; [reflexivity|].
      split; [|reflexivity]. intros [_ Hyes]. contradiction.
  - assert (Hno : ~ occurs (lit "drive.google.com") link) by now apply not_occurs.
    exists No_soportado, []. eexists. split; [reflexivity|].
    cbn [st_trace emit st_heap st_files]. split; [reflexivity|]. split; [exact Hf|].
    split; [reflexivity|]. split; [right; now right|].
    split; [constructor|]. split; [reflexivity|].
    split; [|reflexivity]. intros [Hyes _]. contradiction.
Qed.

(** The whole loop: one record per link, in order, and what it leaves in
    the trace. *)
Lemma download_loop_run (links : list link_entry) (logger : DownloadLogger) (s : state) :
  built factory s ->
  exists statuses mid chosen s',
    for_each links (download_item factory folder delay) logger w s
    = (inr (fold_left (fun l c => update l (fst c) (snd c))
              (combine (map fst links) statuses) logger), s')
    /\ st_trace s' = st_trace s ++ mid
    /\ st_files s' = st_files s
    /\ length statuses = length links
    /\ Forall known_status statuses
    /\ Forall (loop_event links folder delay) mid
    /\ filter is_sleep mid = repeat (EvSleep delay) (length links)
    /\ select drive_link links chosen
    /\ Forall2 (transfer_of folder) chosen (filter is_gdown mid).
Proof.
  revert logger s; induction links as [|item links IH]; intros logger s Hf.
  - exists [], [], [], s. simpl. rewrite app_nil_r.
    repeat split; constructor.
  - destruct (download_item_run item logger s Hf)
      as (status & evs & s1 & Hitem & Htr1 & Hf1 & Hfiles1 & Hst & Hevs & Hsl
          & Hyes & Hno).
    destruct (IH (update logger (fst item) status) s1 Hf1)
      as (statuses & mid & chosen & s' & Hloop & Htr & Hfiles & Hlen & Hall & Hmid
          & Hsleeps & Hsel & Htransfers).
    assert (Hgd : filter is_gdown (evs ++ [EvSleep delay] ++ mid)
                  = filter is_gdown evs ++ filter is_gdown mid)
      by (rewrite !filter_app; reflexivity).
    assert (Hcommon :
      for_each (item :: links) (download_item factory folder delay) logger w s
      = (inr (fold_left (fun l c => update l (fst c) (snd c))
                (combine (map fst (item :: links)) (status :: statuses)) logger), s')
      /\ st_trace s' = st_trace s ++ evs ++ [EvSleep delay] ++ mid
      /\ st_files s' = st_files s
      /\ length (status :: statuses) = length (item :: links)
      /\ Forall known_status (status :: statuses)
      /\ Forall (loop_event (item :: links) folder delay) (evs ++ [EvSleep delay] ++ mid)
      /\ filter is_sleep (evs ++ [EvSleep delay] ++ mid)
         = repeat (EvSleep delay) (length (item :: links))).
    { split; [simpl; unfold bind; rewrite Hitem; exact Hloop|].
      split; [rewrite Htr, Htr1; now rewrite <- !app_assoc|].
      split; [now rewrite Hfiles, Hfiles1|].
      split; [simpl; now rewrite Hlen|].
      split; [now constructor|].
      split.
      - apply Forall_app. split.
        + eapply Forall_impl; [|exact Hevs]. intros ev.
          apply loop_event_incl. intros x [<- | []]. now left.
        + constructor; [reflexivity|].
          eapply Forall_impl; [|exact Hmid]. intros ev.
          apply loop_event_incl. intros x Hx. now right.
      - rewrite !filter_app, Hsl. simpl. now rewrite Hsleeps. }
    assert (Hdec : drive_link item \/ ~ drive_link item).
    { unfold drive_link.
      destruct (occurs_dec (lit "drive.google.com") (snd item)) as [H1 | H1];
        [|right; now intros [H _]].
      destruct (occurs_dec (lit "/d/") (snd item)) as [H2 | H2];
        [left; now split | right; now intros [_ H]]. }
    destruct Hdec as [Hd | Hd].
    + destruct (Hyes Hd) as (ev & Hfilter & Htransfer).
      exists (status :: statuses), (evs ++ [EvSleep delay] ++ mid), (item :: chosen), s'.
      repeat (split; [apply Hcommon|]).
      split; [now apply select_keep|].
      rewrite Hgd, Hfilter. now constructor.
    + exists (status :: statuses), (evs ++ [EvSleep delay] ++ mid), chosen, s'.
      repeat (split; [apply Hcommon|]).
      split; [now apply select_skip|].
      now rewrite Hgd, (Hno Hd).
Qed.

End Run.

(** The run of [download_pdfs] once the folder exists. *)
Lemma download_pdfs_run (w : env) (s : state) (links : list link_entry)
    (folder : str) (delay : nat) :
  factory_ok s ->
  os_makedirs w (st_trace s) folder = inr tt ->
  exists statuses mid chosen,
    length statuses = length links
    /\ Forall known_status statuses
    /\ Forall (loop_event links folder delay) mid
    /\ filter is_sleep mid = repeat (EvSleep delay) (length links)
    /\ select drive_link links chosen
    /\ Forall2 (transfer_of folder) chosen (filter is_gdown mid)
    /\ match to_csv w (st_trace s ++ EvMakedirs folder :: mid)
               (report_path folder) (report links statuses) false with
       | inl e =>
           fst (download_pdfs links folder delay w s) = inl e
           /\ st_trace (snd (download_pdfs links folder delay w s))
              = st_trace s ++ EvMakedirs folder :: mid
                ++ [EvToCsv (report_path folder) (report links statuses) false]
           /\ st_files (snd (download_pdfs links folder delay w s))
              = (report_path folder, None) :: st_files s
       | inr _ =>
           fst (download_pdfs links folder delay w s) = inr tt
           /\ st_trace (snd (download_pdfs links folder delay w s))
              = st_trace s ++ EvMakedirs folder :: mid
                ++ [EvToCsv (report_path folder) (report links statuses) false;
                    EvPrint (lit "Resultados guardados en " ++ report_path folder)]
           /\ st_files (snd (download_pdfs links folder delay w s))
              = (report_path folder, Some (csv_of (report links statuses) false))
                :: st_files s
       end.
Proof.
  intros Hok Hmk.
  destruct (DownloadStrategyFactory_new w (emit (EvMakedirs folder) s))
    as [r s2] eqn:Hnew.
  assert (Hok1 : factory_ok (emit (EvMakedirs folder) s))
    by (apply (factory_ok_frame s); auto).
  destruct (factory_new_ok w _ r s2 Hok1 Hnew) as (-> & _ & Hheap & Htr2).
  assert (Hfiles2 : st_files s2 = st_files s).
  { unfold DownloadStrategyFactory_new in Hnew.
    destruct (st_instance (emit (EvMakedirs folder) s));
      injection Hnew as _ <-; reflexivity. }
  assert (Hbuilt : built 0 s2).
  { unfold built, has_factory. now rewrite Hheap. }
  destruct (download_loop_run w 0 folder delay links DownloadLogger_init s2 Hbuilt)
    as (statuses & mid & chosen & s3 & Hloop & Htr3 & Hfiles3 & Hlen & Hall & Hmid
        & Hsl & Hsel & Htransfers).
  assert (Hdf : DataFrame (results (log_of (combine (map fst links) statuses)))
                = report links statuses).
  { rewrite DataFrame_log. unfold report.
    destruct links as [|l links]; [reflexivity|].
    destruct statuses as [|st statuses]; [discriminate|]. reflexivity. }
  assert (Htrace : st_trace s3 = st_trace s ++ EvMakedirs folder :: mid).
  { rewrite Htr3, Htr2. simpl. now rewrite <- app_assoc. }
  assert (Hrun : download_pdfs links folder delay w s
                 = match to_csv w (st_trace s3) (report_path folder)
                           (report links statuses) false with
                   | inl e =>
                       (inl e,
                        write_file (report_path folder) None
                          (emit (EvToCsv (report_path folder)
                                   (report links statuses) false) s3))
                   | inr _ =>
                       (inr tt,
                        emit (EvPrint (lit "Resultados guardados en "
                                       ++ report_path folder))
                          (write_file (report_path folder)
                             (Some (csv_of (report links statuses) false))
                             (emit (EvToCsv (report_path folder)
                                      (report links statuses) false) s3)))
                   end).
  { unfold download_pdfs, bind, call. rewrite Hmk, Hnew, Hloop.
    unfold save_to_csv, bind, DataFrame_to_csv, print.
    change (fold_left (fun l c => update l (fst c) (snd c))
              (combine (map fst links) statuses) DownloadLogger_init)
      with (log_of (combine (map fst links) statuses)).
    rewrite Hdf. fold (report_path folder).
    destruct (to_csv w (st_trace s3) (report_path folder) (report links statuses) false);
      reflexivity. }
  exists statuses, mid, chosen. repeat (split; [assumption|]).
  rewrite Hrun, <- Htrace.
  destruct (to_csv w (st_trace s3) (report_path folder) (report links statuses) false)
    as [e|u]; cbn [fst snd st_trace st_files emit write_file];
    (split; [reflexivity|]); rewrite Htrace, Hfiles3, Hfiles2;
    (split; [now rewrite <- !app_assoc | reflexivity]).
Qed.

Lemma loop_event_not_csv (links : list link_entry) (folder : str) (delay : nat)
    (evs : list event) :
  Forall (loop_event links folder delay) evs -> filter is_to_csv evs = [].
Proof.
  induction 1 as [|ev evs Hev _ IH]; [reflexivity|].
  destruct ev; simpl in *; try exact IH. contradiction.
Qed.

Lemma loop_event_download_pdfs (links : list link_entry) (folder : str) (delay : nat)
    (ev : event) :
  loop_event links folder delay ev -> download_pdfs_event links folder delay ev.
Proof. destruct ev; simpl; auto; contradiction. Qed.

(** X4. Once the folder exists, download_pdfs writes exactly one report,
    after the loop: it has one row per link, in the order of the links,
    holding the link's name and one of the three statuses. *)
Theorem download_pdfs_report (w : env) (s : state) (links : list link_entry)
    (folder : str) (delay : nat) :
  factory_ok s ->
  os_makedirs w (st_trace s) folder = inr tt ->
  exists statuses before after,
    length statuses = length links
    /\ Forall known_status statuses
    /\ st_trace (snd (download_pdfs links folder delay w s))
       = st_trace s ++ before
         ++ EvToCsv (report_path folder) (report links statuses) false :: after
    /\ filter is_to_csv (before ++ after) = [].
Proof.
  intros Hok Hmk.
  destruct (download_pdfs_run w s links folder delay Hok Hmk)
    as (statuses & mid & chosen & Hlen & Hall & Hmid & _ & _ & _ & Hcsv).
  pose proof (loop_event_not_csv links folder delay mid Hmid) as Hnone.
  exists statuses, (EvMakedirs folder :: mid).
  destruct (to_csv w _ _ _ _) as [e|u]; destruct Hcsv as (_ & Htrace & _).
  - exists []. split; [exact Hlen|]. split; [exact Hall|]. split; [exact Htrace|].
    rewrite app_nil_r. exact Hnone.
  - exists [EvPrint (lit "Resultados guardados en " ++ report_path folder)].
    split; [exact Hlen|]. split; [exact Hall|]. split; [exact Htrace|].
    rewrite filter_app. simpl. now rewrite Hnone.
Qed.

Lemma download_pdfs_report_witness :
  (factory_ok initial_state
   /\ os_makedirs http500_world (st_trace initial_state) (lit "pdfs") = inr tt)
  /\ exists statuses before after,
       length statuses = length three_links
       /\ Forall known_status statuses
       /\ st_trace (snd (download_pdfs three_links (lit "pdfs") 2
                           http500_world initial_state))
          = st_trace initial_state ++ before
            ++ EvToCsv (report_path (lit "pdfs")) (report three_links statuses) false :: after
       /\ filter is_to_csv (before ++ after) = [].
Proof.
  assert (H1 : factory_ok initial_state) by (left; now split).
  assert (H2 : os_makedirs http500_world (st_trace initial_state) (lit "pdfs") = inr tt)
    by reflexivity.
  split; [now split|].
  exact (download_pdfs_report http500_world initial_state three_links (lit "pdfs") 2 H1 H2).
Defined.

(** X5. Once the folder exists, download_pdfs sleeps the delay exactly
    once per link, and its calls of gdown.download are, in the order of the
    links, one for each link that holds "drive.google.com" and "/d/", and
    none for any other link: each transfers the Drive URL of the text
    between the link's first "/d/" and the next "/" to
    os.path.join(folder, name + ".pdf"). *)
Theorem download_pdfs_transfers (w : env) (s : state) (links : list link_entry)
    (folder : str) (delay : nat) :
  factory_ok s ->
  os_makedirs w (st_trace s) folder = inr tt ->
  exists added chosen,
    st_trace (snd (download_pdfs links folder delay w s)) = st_trace s ++ added
    /\ filter is_sleep added = repeat (EvSleep delay) (length links)
    /\ select drive_link links chosen
    /\ Forall2 (transfer_of folder) chosen (filter is_gdown added).
Proof.
  intros Hok Hmk.
  destruct (download_pdfs_run w s links folder delay Hok Hmk)
    as (statuses & mid & chosen & _ & _ & _ & Hsl & Hsel & Htransfers & Hcsv).
  destruct (to_csv w _ _ _ _) as [e|u]; destruct Hcsv as (_ & Htrace & _);
    eexists; exists chosen; (split; [exact Htrace|]);
    simpl; rewrite !filter_app; simpl; rewrite !app_nil_r; now repeat split.
Qed.

Lemma download_pdfs_transfers_witness :
  (factory_ok initial_state
   /\ os_makedirs http500_world (st_trace initial_state) (lit "pdfs") = inr tt)
  /\ exists added chosen,
       st_trace (snd (download_pdfs three_links (lit "pdfs") 2
                        http500_world initial_state))
       = st_trace initial_state ++ added
       /\ filter is_sleep added = repeat (EvSleep 2) (length three_links)
       /\ select drive_link three_links chosen
       /\ Forall2 (transfer_of (lit "pdfs")) chosen (filter is_gdown added).
Proof.
  assert (H1 : factory_ok initial_state) by (left; now split).
  assert (H2 : os_makedirs http500_world (st_trace initial_state) (lit "pdfs") = inr tt)
    by reflexivity.
  split; [now split|].
  exact (download_pdfs_transfers http500_world initial_state three_links (lit "pdfs") 2
           H1 H2).
Defined.

(** Of the three links only the first holds both the host and "/d/". *)
Example three_links_one_transfer :
  filter is_gdown
    (st_trace (snd (download_pdfs three_links (lit "pdfs") 2
                      http500_world initial_state)))
  = [EvGdown (lit "https://drive.google.com/uc?id=BAD") (lit "pdfs/B1.pdf")].
Proof. reflexivity. Qed.

(** X6. Whatever the world answers, download_pdfs does only this: it
    creates the folder, prints, sleeps the delay, writes the report into
    the folder, and transfers, for links of its list that mention
    drive.google.com, the Drive file of the link's identifier to
    <folder>/<name>.pdf.  It fetches no page. *)
Theorem download_pdfs_events (w : env) (s : state) (links : list link_entry)
    (folder : str) (delay : nat) :
  factory_ok s ->
  exists added,
    st_trace (snd (download_pdfs links folder delay w s)) = st_trace s ++ added
    /\ Forall (download_pdfs_event links folder delay) added.
Proof.
  intros Hok.
  destruct (os_makedirs w (st_trace s) folder) as [e|[]] eqn:Hmk.
  - exists [EvMakedirs folder]. split.
    + unfold download_pdfs, bind, call. now rewrite Hmk.
    + constructor; [reflexivity | constructor].
  - destruct (download_pdfs_run w s links folder delay Hok Hmk)
      as (statuses & mid & chosen & _ & _ & Hmid & _ & _ & _ & Hcsv).
    assert (Hmid' : Forall (download_pdfs_event links folder delay) mid).
    { eapply Forall_impl; [|exact Hmid]. intros ev. apply loop_event_download_pdfs. }
    destruct (to_csv w _ _ _ _) as [e|u]; destruct Hcsv as (_ & Htrace & _);
      eexists; (split; [exact Htrace|]);
      (constructor; [reflexivity|]); apply Forall_app; (split; [exact Hmid'|]);
      repeat constructor.
Qed.

Lemma download_pdfs_events_witness :
  factory_ok initial_state
  /\ exists added,
       st_trace (snd (download_pdfs three_links (lit "pdfs") 2
                        http500_world initial_state))
       = st_trace initial_state ++ added
       /\ Forall (download_pdfs_event three_links (lit "pdfs") 2) added.
Proof.
  assert (H : factory_ok initial_state) by (left; now split).
  split; [exact H|].
  exact (download_pdfs_events http500_world initial_state three_links (lit "pdfs") 2 H).
Defined.

(** ** How [main] can fail *)




(** X8. An exception of the page fetch that is no RequestException leaves
    main at once: nothing is printed and no file is touched. *)
Theorem main_fetch_crash (w : env) (s : state) (e : exn) :
  requests_get w (st_trace s) page_url 10 = inl e ->
  is_RequestException e = false ->
  main w s = (inl e, emit (EvHttpGet page_url 10) s).
Proof.
  intros Hget Hreq. unfold main, bind.
  now rewrite (get_pdf_links_other_exception w s page_url e Hget Hreq).
Qed.

Lemma main_fetch_crash_witness :
  (requests_get crash_world (st_trace initial_state) page_url 10
   = inl (mk_exn ValueError (lit "bad url"))
   /\ is_RequestException (mk_exn ValueError (lit "bad url")) = false)
  /\ main crash_world initial_state
     = (inl (mk_exn ValueError (lit "bad url")),
        emit (EvHttpGet page_url 10) initial_state).
Proof.
  assert (H1 : requests_get crash_world (st_trace initial_state) page_url 10
               = inl (mk_exn ValueError (lit "bad url"))) by reflexivity.
  assert (H2 : is_RequestException (mk_exn ValueError (lit "bad url")) = false)
    by reflexivity.
  split; [now split|].
  exact (main_fetch_crash crash_world initial_state _ H1 H2).
Defined.

(** X14. A page that was fetched and that the parser rejects: the
    exception is not caught by get_pdf_links and leaves main right after
    the fetch; nothing is printed and no file is touched. *)
Theorem main_parser_crash (w : env) (s : state) (r : response) (e : exn) :
  requests_get w (st_trace s) page_url 10 = inr r ->
  raise_for_status r = inr tt ->
  html_parser w (text r) = inl e ->
  get_pdf_links page_url w s = (inl e, emit (EvHttpGet page_url 10) s)
  /\ main w s = (inl e, emit (EvHttpGet page_url 10) s).
Proof.
  intros Hget Hstatus Hparse.
  assert (H : get_pdf_links page_url w s = (inl e, emit (EvHttpGet page_url 10) s)).
  { unfold get_pdf_links; unfold_m. now rewrite Hget, Hstatus, Hparse. }
  split; [exact H|]. unfold main, bind. now rewrite H.
Qed.

Lemma main_parser_crash_witness :
  (requests_get rejected_world (st_trace initial_state) page_url 10 = inr ok_page
   /\ raise_for_status ok_page = inr tt
   /\ html_parser rejected_world (text ok_page)
      = inl (mk_exn ParserRejectedMarkup (lit "rejected")))
  /\ (get_pdf_links page_url rejected_world initial_state
      = (inl (mk_exn ParserRejectedMarkup (lit "rejected")),
         emit (EvHttpGet page_url 10) initial_state)
      /\ main rejected_world initial_state
         = (inl (mk_exn ParserRejectedMarkup (lit "rejected")),
            emit (EvHttpGet page_url 10) initial_state)).
Proof.
  assert (H1 : requests_get rejected_world (st_trace initial_state) page_url 10
               = inr ok_page) by reflexivity.
  assert (H2 : raise_for_status ok_page = inr tt) by reflexivity.
  assert (H3 : html_parser rejected_world (text ok_page)
               = inl (mk_exn ParserRejectedMarkup (lit "rejected"))) by reflexivity.
  split; [repeat split; assumption|].
  exact (main_parser_crash rejected_world initial_state ok_page _ H1 H2 H3).
Defined.

(** The report that cannot be written: the transfer is done, then main
    raises, and neither closing message is printed. *)
Example readonly_run :
  main readonly_world initial_state
  = (inl (mk_exn OSError (lit "read-only file system")),
     {| st_trace :=
          [EvHttpGet page_url 10;
           EvMakedirs (lit "pdfs");
           EvPrint (lit "Inicio de la descarga: B1");
           EvGdown (lit "https://drive.google.com/uc?id=ABC123") (lit "pdfs/B1.pdf");
           EvPrint (lit "Fin de la descarga: pdfs/B1.pdf");
           EvSleep 2;
           EvToCsv (lit "pdfs/descargas_resultados.csv")
             {| columns := [lit "Nombre"; lit "Estado"];
                data := [[Some (lit "B1"); Some (lit "Exitoso")]] |} false];
        st_heap := [mk_factory default_strategies];
        st_instance := Some 0;
        st_files := [(lit "pdfs/descargas_resultados.csv", None)] |}).
Proof. reflexivity. Qed.

(** ** Where the entries come from *)

Lemma node_induction (P : node -> Prop) :
  (forall s, P (Text s)) ->
  (forall s, P (Comment s)) ->
  (forall name attrs cs, Forall P cs -> P (Tag name attrs cs)) ->
  forall n, P n.
Proof.
  intros HText HComment HTag. fix IH 1.
  intros [s|s|name attrs cs]; [apply HText | apply HComment |].
  apply HTag. revert cs. fix IHcs 1.
  intros [|c cs]; constructor; [apply IH | apply IHcs].
Qed.

(** What lies below a descendant lies below the node. *)
Lemma descendants_trans (n c d : node) :
  In c (descendants n) -> In d (descendants c) -> In d (descendants n).
Proof.
  revert c d. induction n as [s|s|name attrs cs IH] using node_induction;
    intros c d Hc Hd; try contradiction.
  simpl in *. apply in_flat_map in Hc as (x & Hx & Hcx).
  apply in_flat_map. exists x. split; [exact Hx|].
  destruct Hcx as [<- | Hcx].
  - now right.
  - right. rewrite Forall_forall in IH. exact (IH x Hx c d Hcx Hd).
Qed.

Lemma find_all_In (name : str) (n d : node) :
  In d (find_all name n) -> In d (descendants n) /\ is_tag name d = true.
Proof. unfold find_all. apply filter_In. Qed.

Lemma find_with_attr_In (name key : str) (n a : node) :
  find_with_attr name key n = Some a ->
  In a (descendants n) /\ is_tag name a = true.
Proof.
  unfold find_with_attr. intros H.
  apply hd_filter_Some in H as (Ha & pre & post & Hd & _).
  apply andb_true_iff in Ha as [Ha _]. split; [|exact Ha].
  rewrite Hd. apply in_or_app. right. now left.
Qed.

(** An entry of a row names a cell and an anchor below the row. *)
Lemma row_entry_from_row (row : node) (name url : str) :
  In (name, url) (row_entry row) ->
  exists cell anchor,
    In cell (descendants row) /\ is_tag (lit "td") cell = true
    /\ name = get_text_strip cell
    /\ In anchor (descendants row) /\ is_tag (lit "a") anchor = true
    /\ attr anchor (lit "href") = Some url.
Proof.
  unfold row_entry, first_hyperlink.
  destruct (find_all (lit "td") row) as [|c0 [|c1 [|c2 rest]]] eqn:Htds;
    try contradiction.
  destruct (find_with_attr (lit "a") (lit "href") c2) as [a|] eqn:F;
    [|contradiction].
  destruct (attr a (lit "href")) as [v|] eqn:Hv; [|contradiction].
  intros [[= <- <-] | []].
  assert (H0 : In c0 (find_all (lit "td") row)) by (rewrite Htds; now left).
  assert (H2 : In c2 (find_all (lit "td") row))
    by (rewrite Htds; right; right; now left).
  apply find_all_In in H0 as [H0 Ht0]. apply find_all_In in H2 as [H2 _].
  apply find_with_attr_In in F as [Fa Hta].
  exists c0, a. split; [exact H0|]. split; [exact Ht0|]. split; [reflexivity|].
  split; [exact (descendants_trans row c2 a H2 Fa)|]. now split.
Qed.

(** X9. Every entry the extractor returns comes from the page: its name is
    the stripped text of a td tag of the page, its url the href of an a tag
    of the page, and both lie below one tr tag of the page. *)
Theorem scan_rows_from_page (soup : node) (links : list link_entry) (name url : str) :
  scan_rows soup = inr links ->
  In (name, url) links ->
  exists row cell anchor,
    In row (descendants soup) /\ is_tag (lit "tr") row = true
    /\ In cell (descendants row) /\ In cell (descendants soup)
    /\ is_tag (lit "td") cell = true /\ name = get_text_strip cell
    /\ In anchor (descendants row) /\ In anchor (descendants soup)
    /\ is_tag (lit "a") anchor = true /\ attr anchor (lit "href") = Some url.
Proof.
  rewrite scan_rows_links. intros [= <-] Hin.
  unfold row_links in Hin. apply in_flat_map in Hin as (row & Hrow & Hentry).
  apply find_all_In in Hrow as [Hrow Htr].
  destruct (row_entry_from_row row name url Hentry)
    as (cell & anchor & Hc & Htd & Hname & Ha & Hta & Hhref).
  exists row, cell, anchor.
  split; [exact Hrow|]. split; [exact Htr|]. split; [exact Hc|].
  split; [exact (descendants_trans soup row cell Hrow Hc)|].
  split; [exact Htd|]. split; [exact Hname|]. split; [exact Ha|].
  split; [exact (descendants_trans soup row anchor Hrow Ha)|]. now split.
Qed.

Lemma scan_rows_from_page_witness :
  (scan_rows nested_soup = inr [(lit "Name", lit "u")]
   /\ In (lit "Name", lit "u") [(lit "Name", lit "u")])
  /\ exists row cell anchor,
       In row (descendants nested_soup) /\ is_tag (lit "tr") row = true
       /\ In cell (descendants row) /\ In cell (descendants nested_soup)
       /\ is_tag (lit "td") cell = true /\ lit "Name" = get_text_strip cell
       /\ In anchor (descendants row) /\ In anchor (descendants nested_soup)
       /\ is_tag (lit "a") anchor = true /\ attr anchor (lit "href") = Some (lit "u").
Proof.
  assert (H1 : scan_rows nested_soup = inr [(lit "Name", lit "u")]) by reflexivity.
  assert (H2 : In (lit "Name", lit "u") [(lit "Name", lit "u")]) by (now left).
  split; [now split|].
  exact (scan_rows_from_page nested_soup _ (lit "Name") (lit "u") H1 H2).
Defined.

Lemma flat_map_length_le {A B} (f : A -> list B) (l : list A) :
  (forall x, length (f x) <= 1) -> length (flat_map f l) <= length l.
Proof.
  intros Hf. induction l as [|x l IH]; simpl; [lia|].
  rewrite length_app. specialize (Hf x). lia.
Qed.

(** X10. The extractor never raises, and returns at most one entry per tr
    tag of the page; a page without tr tags gives the empty list. *)
Theorem scan_rows_bounded (soup : node) :
  exists links,
    scan_rows soup = inr links
    /\ length links <= length (find_all (lit "tr") soup)
    /\ (find_all (lit "tr") soup = [] -> links = []).
Proof.
  exists (row_links soup). split; [apply scan_rows_links|]. split.
  - apply flat_map_length_le. apply row_entry_at_most_one.
  - unfold row_links. now intros ->.
Qed.

(** ** The names are stripped *)

Lemma lstrip_no_lead (s : str) : no_lead (lstrip s).
Proof.
  induction s as [|c s IH]; simpl; [exact I|].
  destruct (isspace c) eqn:E; [exact IH | exact E].
Qed.

Lemma lstrip_id (s : str) : no_lead s -> lstrip s = s.
Proof. destruct s as [|c s]; simpl; [reflexivity|]. now intros ->. Qed.

Lemma lstrip_suffix (s : str) : exists pre, s = pre ++ lstrip s.
Proof.
  induction s as [|c s [pre IH]]; simpl; [now exists []|].
  destruct (isspace c).
  - exists (c :: pre). simpl. now rewrite <- IH.
  - now exists [].
Qed.

Lemma no_lead_app_l (a b : str) : no_lead (a ++ b) -> no_lead a.
Proof. destruct a; simpl; auto. Qed.

Lemma no_lead_app (a b : str) :
  no_lead a -> (a = [] -> no_lead b) -> no_lead (a ++ b).
Proof. destruct a; simpl; auto. Qed.

Lemma strip_stripped (s : str) : stripped (strip s).
Proof.
  unfold stripped, strip. split.
  - destruct (lstrip_suffix (rev (lstrip s))) as [pre Hpre].
    apply (no_lead_app_l _ (rev pre)). rewrite <- rev_app_distr, <- Hpre.
    rewrite rev_involutive. apply lstrip_no_lead.
  - rewrite rev_involutive. apply lstrip_no_lead.
Qed.

Lemma stripped_strip (s : str) : stripped s -> strip s = s.
Proof.
  intros [H1 H2]. unfold strip.
  rewrite (lstrip_id s H1), (lstrip_id (rev s) H2). apply rev_involutive.
Qed.

Lemma concat_stripped (l : list str) :
  Forall (fun piece => stripped piece /\ piece <> []) l -> stripped (concat l).
Proof.
  induction 1 as [|x l [[Hx1 Hx2] Hne] _ [IH1 IH2]]; simpl.
  - split; exact I.
  - split.
    + apply no_lead_app; [exact Hx1 | contradiction].
    + rewrite rev_app_distr. apply no_lead_app; [exact IH2|].
      now intros _.
Qed.

Lemma get_text_strip_stripped (n : node) : stripped (get_text_strip n).
Proof.
  unfold get_text_strip. apply concat_stripped. apply Forall_forall.
  intros piece Hin. apply filter_In in Hin as [Hin Hne].
  apply in_map_iff in Hin as (x & <- & _). split; [apply strip_stripped|].
  intros H. rewrite H in Hne. discriminate.
Qed.

(** X11. Every name the extractor returns neither begins nor ends with
    whitespace: stripping it again changes nothing. *)
Theorem scan_rows_names_stripped (soup : node) (links : list link_entry)
    (name url : str) :
  scan_rows soup = inr links ->
  In (name, url) links ->
  strip name = name.
Proof.
  rewrite scan_rows_links. intros [= <-] Hin.
  unfold row_links in Hin. apply in_flat_map in Hin as (row & _ & Hentry).
  destruct (row_entry_from_row row name url Hentry) as (cell & _ & _ & _ & -> & _).
  apply stripped_strip. apply get_text_strip_stripped.
Qed.

Lemma scan_rows_names_stripped_witness :
  (scan_rows spaced_soup = inr [(lit "Bolet12", lit "u")]
   /\ In (lit "Bolet12", lit "u") [(lit "Bolet12", lit "u")])
  /\ strip (lit "Bolet12") = lit "Bolet12".
Proof.
  assert (H1 : scan_rows spaced_soup = inr [(lit "Bolet12", lit "u")]) by reflexivity.
  assert (H2 : In (lit "Bolet12", lit "u") [(lit "Bolet12", lit "u")]) by (now left).
  split; [now split|].
  exact (scan_rows_names_stripped spaced_soup _ (lit "Bolet12") (lit "u") H1 H2).
Defined.

(** ** Where a transfer is written *)

Lemma starts_with_app_l (p a b : str) :
  starts_with p a = true -> starts_with p (a ++ b) = true.
Proof.
  intros H. apply starts_with_iff in H as [t ->].
  rewrite <- app_assoc. apply starts_with_app.
Qed.

Lemma starts_with_slash_app (a b : str) :
  a <> [] -> starts_with (lit "/") (a ++ b) = starts_with (lit "/") a.
Proof. destruct a as [|c a]; [contradiction | reflexivity]. Qed.

(** X12. When an identifier is derived, download passes gdown.download the
    Drive URL of the identifier and the path os.path.join(folder,
    name + ".pdf").  For a name that begins with "/" that path is
    name + ".pdf" itself, outside the folder; otherwise, for a folder
    that is not empty and does not end in "/", it is
    folder + "/" + name + ".pdf". *)
Theorem download_output_path (w : env) (s : state)
    (name link folder file_id : str) :
  drive_file_id link = inr file_id ->
  exists output tail,
    st_trace (snd (download GoogleDriveDownloader name link folder w s))
    = st_trace s
      ++ EvPrint (lit "Inicio de la descarga: " ++ name)
      :: EvGdown (lit "https://drive.google.com/uc?id=" ++ file_id) output
      :: tail
    /\ (starts_with (lit "/") name = true -> output = name ++ lit ".pdf")
    /\ (starts_with (lit "/") name = false ->
        folder <> [] -> starts_with (lit "/") (rev folder) = false ->
        output = folder ++ lit "/" ++ name ++ lit ".pdf").
Proof.
  intros Hid. exists (os_path_join folder (name ++ lit ".pdf")).
  unfold download, GoogleDriveDownloader_download; unfold_m. rewrite Hid.
  cbn [st_trace emit].
  assert (Hpaths :
    (starts_with (lit "/") name = true ->
     os_path_join folder (name ++ lit ".pdf") = name ++ lit ".pdf")
    /\ (starts_with (lit "/") name = false ->
        folder <> [] -> starts_with (lit "/") (rev folder) = false ->
        os_path_join folder (name ++ lit ".pdf")
        = folder ++ lit "/" ++ name ++ lit ".pdf")).
  { unfold os_path_join. split.
    - intros H. now rewrite (starts_with_app_l _ _ _ H).
    - intros H Hne Hend.
      assert (Hs : starts_with (lit "/") (name ++ lit ".pdf") = false).
      { destruct name as [|c name]; [reflexivity|].
        rewrite starts_with_slash_app; [exact H | discriminate]. }
      rewrite Hs, Hend. destruct folder; [contradiction|]. reflexivity. }
  destruct (gdown_download w _ _ _) as [e|u]; cbn [snd st_trace emit];
    eexists; (split; [rewrite <- !app_assoc; reflexivity | exact Hpaths]).
Qed.

Lemma download_output_path_witness :
  drive_file_id abc_link = inr (lit "ABC123")
  /\ exists output tail,
       st_trace (snd (download GoogleDriveDownloader (lit "/tmp/x") abc_link
                        (lit "pdfs") http500_world initial_state))
       = st_trace initial_state
         ++ EvPrint (lit "Inicio de la descarga: " ++ lit "/tmp/x")
         :: EvGdown (lit "https://drive.google.com/uc?id=" ++ lit "ABC123") output
         :: tail
       /\ (starts_with (lit "/") (lit "/tmp/x") = true ->
           output = lit "/tmp/x" ++ lit ".pdf")
       /\ (starts_with (lit "/") (lit "/tmp/x") = false ->
           lit "pdfs" <> [] -> starts_with (lit "/") (rev (lit "pdfs")) = false ->
           output = lit "pdfs" ++ lit "/" ++ lit "/tmp/x" ++ lit ".pdf").
Proof.
  assert (H : drive_file_id abc_link = inr (lit "ABC123")) by reflexivity.
  split; [exact H|].
  exact (download_output_path http500_world initial_state (lit "/tmp/x") abc_link
           (lit "pdfs") (lit "ABC123") H).
Defined.

Example absolute_name_run :
  st_trace (snd (download GoogleDriveDownloader (lit "/tmp/x") abc_link
                   (lit "pdfs") http500_world initial_state))
  = [EvPrint (lit "Inicio de la descarga: /tmp/x");
     EvGdown (lit "https://drive.google.com/uc?id=ABC123") (lit "/tmp/x.pdf");
     EvPrint (lit "Fin de la descarga: /tmp/x.pdf")].
Proof. reflexivity. Qed.

(** ** From the page to the report *)

Lemma get_pdf_links_ok (w : env) (s : state) (url : str) (r : response) (soup : node) :
  requests_get w (st_trace s) url 10 = inr r ->
  raise_for_status r = inr tt ->
  html_parser w (text r) = inr soup ->
  get_pdf_links url w s
  = (inr (row_links soup), emit (EvHttpGet url 10) s).
Proof.
  intros Hget Hstatus Hparse. unfold get_pdf_links; unfold_m.
  rewrite Hget, Hstatus, Hparse. now rewrite scan_rows_links.
Qed.

Lemma csv_of_report (links : list link_entry) (statuses : list str) :
  links <> [] ->
  csv_of (report links statuses) false
  = {| csv_header := two_columns;
       csv_rows := map (fun c => [fst c; snd c]) (combine (map fst links) statuses) |}.
Proof.
  intros Hne. unfold csv_of, report. simpl.
  destruct links as [|l links]; [contradiction|]. f_equal.
  rewrite map_map. apply map_ext. intros c. reflexivity.
Qed.

(** X13. When the page is fetched and parsed, holds at least one entry
    and the folder can be created, main fetches once, creates "pdfs", and
    calls to_csv once, without index and after the loop, with the table
    whose rows are the extracted entries in document order, each with its
    name and one of the three statuses.  If that call returns, main
    returns, the file pdfs/descargas_resultados.csv holds these rows
    under Nombre, Estado, and both closing messages are printed; if it
    raises, main raises the same exception and prints neither. *)
Theorem main_run (w : env) (s : state) (r : response) (soup : node) :
  factory_ok s ->
  requests_get w (st_trace s) page_url 10 = inr r ->
  raise_for_status r = inr tt ->
  html_parser w (text r) = inr soup ->
  row_links soup <> [] ->
  os_makedirs w (st_trace s ++ [EvHttpGet page_url 10]) (lit "pdfs") = inr tt ->
  exists statuses before,
    length statuses = length (row_links soup)
    /\ Forall known_status statuses
    /\ filter is_to_csv before = []
    /\ match to_csv w
               (st_trace s ++ EvHttpGet page_url 10 :: EvMakedirs (lit "pdfs") :: before)
               (report_path (lit "pdfs")) (report (row_links soup) statuses) false with
       | inr _ =>
           fst (main w s) = inr tt
           /\ st_trace (snd (main w s))
              = st_trace s
                ++ EvHttpGet page_url 10 :: EvMakedirs (lit "pdfs") :: before
                ++ [EvToCsv (report_path (lit "pdfs"))
                      (report (row_links soup) statuses) false;
                    EvPrint (lit "Resultados guardados en " ++ report_path (lit "pdfs"));
                    EvPrint (lit "Descarga completada.")]
           /\ file_at (report_path (lit "pdfs")) (snd (main w s))
              = Some (Some {| csv_header := two_columns;
                              csv_rows :=
                                map (fun c => [fst c; snd c])
                                  (combine (map fst (row_links soup)) statuses) |})
       | inl e =>
           fst (main w s) = inl e
           /\ st_trace (snd (main w s))
              = st_trace s
                ++ EvHttpGet page_url 10 :: EvMakedirs (lit "pdfs") :: before
                ++ [EvToCsv (report_path (lit "pdfs"))
                      (report (row_links soup) statuses) false]
       end.
Proof.
  intros Hok Hget Hstatus Hparse Hne Hmk.
  pose proof (get_pdf_links_ok w s page_url r soup Hget Hstatus Hparse) as Hlinks.
  set (links := row_links soup) in *.
  set (s1 := emit (EvHttpGet page_url 10) s) in *.
  assert (Hok1 : factory_ok s1) by (apply (factory_ok_frame s); auto).
  destruct (download_pdfs_run w s1 links (lit "pdfs") 2 Hok1 Hmk)
    as (statuses & mid & chosen & Hlen & Hall & Hmid & _ & _ & _ & Hcsv).
  assert (Hmain : main w s
                  = match download_pdfs links (lit "pdfs") 2 w s1 with
                    | (inl e, s2) => (inl e, s2)
                    | (inr _, s2) =>
                        (inr tt, emit (EvPrint (lit "Descarga completada.")) s2)
                    end).
  { unfold main, bind at 1. rewrite Hlinks.
    destruct links as [|l links]; [contradiction|]. unfold bind, print.
    destruct (download_pdfs (l :: links) (lit "pdfs") 2 w s1) as [[e|u] s2];
      reflexivity. }
  assert (Hs1 : st_trace s1 ++ EvMakedirs (lit "pdfs") :: mid
                = st_trace s ++ EvHttpGet page_url 10 :: EvMakedirs (lit "pdfs") :: mid).
  { subst s1. cbn [st_trace emit]. now rewrite <- app_assoc. }
  rewrite Hs1 in Hcsv.
  exists statuses, mid. split; [exact Hlen|]. split; [exact Hall|].
  split; [exact (loop_event_not_csv links (lit "pdfs") 2 mid Hmid)|].
  destruct (to_csv w _ _ _ _) as [e|u]; destruct Hcsv as (Hres & Htrace & Hfiles);
    rewrite Hmain;
    destruct (download_pdfs links (lit "pdfs") 2 w s1) as [[e2|u2] s2];
    cbn [fst snd] in Hres, Htrace, Hfiles; try discriminate;
    cbn [fst snd st_trace emit].
  - injection Hres as ->. split; [reflexivity|].
    rewrite Htrace. subst s1. cbn [st_trace emit]. now rewrite <- !app_assoc.
  - split; [reflexivity|]. split.
    + rewrite Htrace. subst s1. cbn [st_trace emit].
      rewrite <- !app_assoc. simpl. rewrite <- !app_assoc. reflexivity.
    + unfold file_at. cbn [st_files emit]. rewrite Hfiles.
      cbn [lookup_file]. rewrite str_eqb_refl.
      now rewrite (csv_of_report links statuses Hne).
Qed.

Lemma main_run_witness :
  (factory_ok initial_state
   /\ requests_get scenario_D_world (st_trace initial_state) page_url 10 = inr ok_page
   /\ raise_for_status ok_page = inr tt
   /\ html_parser scenario_D_world (text ok_page) = inr scenario_D_soup
   /\ row_links scenario_D_soup <> []
   /\ os_makedirs scenario_D_world (st_trace initial_state ++ [EvHttpGet page_url 10])
        (lit "pdfs") = inr tt)
  /\ exists statuses before,
       length statuses = length (row_links scenario_D_soup)
       /\ Forall known_status statuses
       /\ filter is_to_csv before = []
       /\ match to_csv scenario_D_world
                  (st_trace initial_state
                   ++ EvHttpGet page_url 10 :: EvMakedirs (lit "pdfs") :: before)
                  (report_path (lit "pdfs"))
                  (report (row_links scenario_D_soup) statuses) false with
          | inr _ =>
              fst (main scenario_D_world initial_state) = inr tt
              /\ st_trace (snd (main scenario_D_world initial_state))
                 = st_trace initial_state
                   ++ EvHttpGet page_url 10 :: EvMakedirs (lit "pdfs") :: before
                   ++ [EvToCsv (report_path (lit "pdfs"))
                         (report (row_links scenario_D_soup) statuses) false;
                       EvPrint (lit "Resultados guardados en "
                                ++ report_path (lit "pdfs"));
                       EvPrint (lit "Descarga completada.")]
              /\ file_at (report_path (lit "pdfs"))
                   (snd (main scenario_D_world initial_state))
                 = Some (Some {| csv_header := two_columns;
                                 csv_rows :=
                                   map (fun c => [fst c; snd c])
                                     (combine (map fst (row_links scenario_D_soup))
                                        statuses) |})
          | inl e =>
              fst (main scenario_D_world initial_state) = inl e
              /\ st_trace (snd (main scenario_D_world initial_state))
                 = st_trace initial_state
                   ++ EvHttpGet page_url 10 :: EvMakedirs (lit "pdfs") :: before
                   ++ [EvToCsv (report_path (lit "pdfs"))
                         (report (row_links scenario_D_soup) statuses) false]
          end.
Proof.
  assert (H1 : factory_ok initial_state) by (left; now split).
  assert (H2 : requests_get scenario_D_world (st_trace initial_state) page_url 10
               = inr ok_page) by reflexivity.
  assert (H3 : raise_for_status ok_page = inr tt) by reflexivity.
  assert (H4 : html_parser scenario_D_world (text ok_page) = inr scenario_D_soup)
    by reflexivity.
  assert (H5 : row_links scenario_D_soup <> []) by discriminate.
  assert (H6 : os_makedirs scenario_D_world
                 (st_trace initial_state ++ [EvHttpGet page_url 10]) (lit "pdfs")
               = inr tt) by reflexivity.
  split; [repeat split; assumption|].
  exact (main_run scenario_D_world initial_state ok_page scenario_D_soup
           H1 H2 H3 H4 H5 H6).
Defined.

(** Scenario D, the file: the report holds the two rows in page order. *)
Example scenario_D_file :
  file_at (lit "pdfs/descargas_resultados.csv")
    (snd (main scenario_D_world initial_state))
  = Some (Some {| csv_header := [lit "Nombre"; lit "Estado"];
                  csv_rows := [[lit "B1"; lit "Fallido"];
                               [lit "B2"; lit "Exitoso"]] |}).
Proof. reflexivity. Qed.
